(** * Kdag node: configuration, store initialisation, blocks and the
  application gateway.

  A shallow embedding of [src/config/config.go], of the [proxy.AppGateway]
  interface and of the behaviour exercised by the node and block tests,
  with the properties of the design document proved about it. *)

From Stdlib Require Import ZArith Lia Ascii Strings.Byte Zcong.
From stdpp Require Import base tactics option list strings gmap sorting.

Local Open Scope Z_scope.

(** * Strings: the pieces of Go's [strings] package used by the code *)

Module Strings.

(** [strings.HasPrefix(s, p)]. *)
Fixpoint HasPrefix (s p : string) : bool :=
  match p, s with
  | EmptyString, _ => true
  | String c p', String d s' => if decide (c = d) then HasPrefix s' p' else false
  | String _ _, EmptyString => false
  end.

(** [strings.Contains(s, sub)]: some suffix of [s] starts with [sub]. *)
Fixpoint Contains (s sub : string) : bool :=
  HasPrefix s sub ||
  match s with
  | EmptyString => false
  | String _ s' => Contains s' sub
  end.

(** [strings.Split(s, "/")]: the pieces between the separators; a string
    without separator is its own single piece. *)
Fixpoint Split (sep : ascii) (s : string) : list string :=
  match s with
  | EmptyString => [EmptyString]
  | String c s' =>
      if decide (c = sep) then EmptyString :: Split sep s'
      else match Split sep s' with
           | h :: t => String c h :: t
           | [] => [String c EmptyString]
           end
  end.

(** [strings.Join(elems, "/")]. *)
Fixpoint Join (sep : ascii) (elems : list string) : string :=
  match elems with
  | [] => EmptyString
  | [e] => e
  | e :: rest => e +:+ String sep (Join sep rest)
  end.

(** No byte of [s] is [c]. *)
Fixpoint free_of (c : ascii) (s : string) : bool :=
  match s with
  | EmptyString => true
  | String d s' => if decide (d = c) then false else free_of c s'
  end.

End Strings.

(** * Paths: Go's [path/filepath] on a slash-separated platform

  [filepath] belongs to the Go standard library; it is rendered here on
  path elements, following its documented rules: separators are collapsed,
  [.] elements are dropped, an inner [..] removes the element before it,
  a [..] at the start of a rooted path is dropped, and the empty result is
  written [.]. *)

Module Filepath.

Definition Separator : ascii := "/"%char.

Definition rooted (path : string) : bool := Strings.HasPrefix path "/".

(** One element of the scan of [Clean]; [out] is the stack of elements
    written so far, the last one first. *)
Definition clean_step (root : bool) (out : list string) (e : string) : list string :=
  if decide (e = "") then out
  else if decide (e = ".") then out
  else if decide (e = "..") then
    match out with
    | top :: rest =>
        if decide (top = "..") then (if root then out else e :: out) else rest
    | [] => if root then out else [e]
    end
  else e :: out.

Definition clean_elems (root : bool) (elems : list string) : list string :=
  rev (fold_left (clean_step root) elems []).

(** The string written for a list of cleaned elements. *)
Definition render (root : bool) (elems : list string) : string :=
  if root then "/" +:+ Strings.Join Separator elems
  else match elems with
       | [] => "."
       | _ => Strings.Join Separator elems
       end.

(** [filepath.Clean]. *)
Definition Clean (path : string) : string :=
  if decide (path = "") then "."
  else render (rooted path) (clean_elems (rooted path) (Strings.Split Separator path)).

(** [filepath.Join]: the elements from the first non-empty one on are
    joined with the separator and the result is cleaned; with no
    non-empty element the result is the empty string. *)
Fixpoint Join (elem : list string) : string :=
  match elem with
  | [] => ""
  | e :: rest =>
      if decide (e = "") then Join rest
      else Clean (Strings.Join Separator elem)
  end.

(** [filepath.Base]: the last element of the path, trailing separators
    removed; [.] for the empty path and [/] for a path of separators. *)
Definition Base (path : string) : string :=
  if decide (path = "") then "."
  else match filter (λ e, e ≠ "") (rev (Strings.Split Separator path)) with
       | e :: _ => e
       | [] => "/"
       end.

(** The part of [path] up to and including its last separator. *)
Definition dir_part (path : string) : string :=
  match rev (Strings.Split Separator path) with
  | _ :: ((_ :: _) as before) => Strings.Join Separator (rev ("" :: before))
  | _ => ""
  end.

(** [filepath.Dir]: all but the last element of the path, cleaned. *)
Definition Dir (path : string) : string := Clean (dir_part path).

(** A name of a directory entry: a single element that is neither empty
    nor [.] nor [..]. *)
Definition is_name (e : string) : bool :=
  bool_decide (e ≠ "") && bool_decide (e ≠ ".") && bool_decide (e ≠ "..") &&
  Strings.free_of Separator e.

(** The stacks that the scan of [Clean] builds, last element first: names
    on top of a run of [..], a run that is empty for a rooted path. *)
Inductive clean_stack (root : bool) : list string → Prop :=
| cs_dotdots dd :
    Forall (λ e, e = "..") dd → (root = true → dd = []) → clean_stack root dd
| cs_name e out :
    is_name e = true → clean_stack root out → clean_stack root (e :: out).

(** The element lists that [Clean] writes, first element first. *)
Definition clean_list (root : bool) (l : list string) : Prop := clean_stack root (rev l).

(** The path written [<dir>/<name>] in the layout of the data directory:
    the entry [name] of the directory [dir], for [dir] in clean form. *)
Definition child (dir name : string) : string :=
  if decide (dir = ".") then name
  else if decide (dir = "/") then "/" +:+ name
  else dir +:+ String Separator name.

End Filepath.

(** * Bytes: big-endian integers and hexadecimal text *)

Module Bytes.

Definition to_Z (b : byte) : Z := Z.of_N (Byte.to_N b).

Definition of_Z (z : Z) : byte :=
  match Byte.of_N (Z.to_N (z mod 256)) with
  | Some b => b
  | None => x00
  end.

(** [big.Int.SetBytes]: the big-endian value of a byte string. *)
Definition be_decode (bs : list byte) : Z :=
  fold_left (λ acc b, acc * 256 + to_Z b) bs 0.

(** [big.Int.FillBytes]: [x] written big-endian on exactly [n] bytes. *)
Fixpoint be_encode (n : nat) (x : Z) : list byte :=
  match n with
  | O => []
  | S n' => be_encode n' (x / 256) ++ [of_Z x]
  end.





End Bytes.

(** * Elliptic curves: Go's [crypto/elliptic] interface and secp256k1 *)

Module Elliptic.

(** [elliptic.CurveParams]: the field [P], the order [N] of the base
    point, the constant [B] of the equation, the base point and the size of
    the field in bits. *)
Record CurveParams := {
  P : Z;
  N : Z;
  B : Z;
  Gx : Z;
  Gy : Z;
  BitSize : Z;
  Name : string
}.

(** An affine point; as in Go, [(0, 0)] stands for the point at infinity. *)
Definition Point : Type := Z * Z.

Definition infinity : Point := (0, 0).

Definition is_infinity (pt : Point) : bool := (pt.1 =? 0) && (pt.2 =? 0).


(** The [elliptic.Curve] interface. Scalars are the non-negative integers
    that Go passes as big-endian byte strings. *)
Record Curve := {
  Params : CurveParams;
  IsOnCurve : Point → bool;
  Add : Point → Point → Point;
  Double : Point → Point;
  ScalarMult : Point → Z → Point;
  ScalarBaseMult : Z → Point
}.

(** ** Arithmetic of the curves y² = x³ + B (Koblitz curves, a = 0) *)

Definition koblitz_on_curve (cp : CurveParams) (pt : Point) : bool :=
  let '(x, y) := pt in
  (0 <=? x) && (x <? P cp) && (0 <=? y) && (y <? P cp) &&
  ((y * y) mod P cp =? (x * x * x + B cp) mod P cp).

Definition koblitz_double (cp : CurveParams) (pt : Point) : Point :=
  let '(x, y) := pt in
  if is_infinity pt || (y =? 0) then infinity
  else
    let l := (3 * x * x * Z.invmod (2 * y) (P cp)) mod P cp in
    let x3 := (l * l - 2 * x) mod P cp in
    (x3, (l * (x - x3) - y) mod P cp).

Definition koblitz_add (cp : CurveParams) (p1 p2 : Point) : Point :=
  let '(x1, y1) := p1 in
  let '(x2, y2) := p2 in
  if is_infinity p1 then p2
  else if is_infinity p2 then p1
  else if x1 =? x2 then
    (if (y1 + y2) mod P cp =? 0 then infinity else koblitz_double cp p1)
  else
    let l := ((y2 - y1) * Z.invmod (x2 - x1) (P cp)) mod P cp in
    let x3 := (l * l - x1 - x2) mod P cp in
    (x3, (l * (x1 - x3) - y1) mod P cp).

(** Double-and-add over the binary digits of the scalar. *)
Definition koblitz_scalar_mult (cp : CurveParams) (pt : Point) (k : Z) : Point :=
  match k with
  | Zpos n => Pos.iter_op (koblitz_add cp) n pt
  | _ => infinity
  end.

Definition koblitz (cp : CurveParams) : Curve := {|
  Params := cp;
  IsOnCurve := koblitz_on_curve cp;
  Add := koblitz_add cp;
  Double := koblitz_double cp;
  ScalarMult := koblitz_scalar_mult cp;
  ScalarBaseMult := koblitz_scalar_mult cp (Gx cp, Gy cp)
|}.

(** The parameters of secp256k1 (SEC 2, section 2.4.1). *)
Definition secp256k1 : CurveParams := {|
  P := 0xFFFFFFFFFFFFFFFFFFFFFFFFFFFFFFFFFFFFFFFFFFFFFFFFFFFFFFFEFFFFFC2F;
  N := 0xFFFFFFFFFFFFFFFFFFFFFFFFFFFFFFFEBAAEDCE6AF48A03BBFD25E8CD0364141;
  B := 7;
  Gx := 0x79BE667EF9DCBBAC55A06295CE870B07029BFCDB2DCE28D959F2815B16F81798;
  Gy := 0x483ADA7726A3C4655DA4FBFC0E1108A8FD17B448A68554199C47D08FFB10D4B8;
  BitSize := 256;
  Name := "secp256k1"
|}.

(** [btcec.S256()]. *)
Definition S256 : Curve := koblitz secp256k1.

(** A curve of the same family small enough to enumerate: y² = x³ + 7 over
    the field of 43 elements, whose 31 points form a group of prime order. *)
Definition tiny43 : CurveParams := {|
  P := 43; N := 31; B := 7; Gx := 2; Gy := 12; BitSize := 6; Name := "tiny43"
|}.

Definition T43 : Curve := koblitz tiny43.

Definition byteLen (c : Curve) : nat := Z.to_nat ((BitSize (Params c) + 7) / 8).

(** [elliptic.Marshal]: the uncompressed form, byte 4 then both
    coordinates big-endian on [byteLen] bytes each. *)
Definition Marshal (c : Curve) (pt : Point) : list byte :=
  x04 :: Bytes.be_encode (byteLen c) pt.1 ++ Bytes.be_encode (byteLen c) pt.2.

(** [elliptic.Unmarshal]: [None] unless the data is the uncompressed form
    of a point of the curve. *)
Definition Unmarshal (c : Curve) (data : list byte) : option Point :=
  match data with
  | b :: rest =>
      if decide (length data = S (2 * byteLen c)%nat) then
        if Byte.eqb b x04 then
          let x := Bytes.be_decode (take (byteLen c) rest) in
          let y := Bytes.be_decode (drop (byteLen c) rest) in
          if (P (Params c) <=? x) || (P (Params c) <=? y) then None
          else if IsOnCurve c (x, y) then Some (x, y) else None
        else None
      else None
  | [] => None
  end.


End Elliptic.

(** * Results: a Go pair [(value, error)] of which one side is set *)

Inductive result (A : Type) : Type :=
| Ok (a : A)
| Err (msg : string).

Arguments Ok {A} a.
Arguments Err {A} msg.

Definition is_ok {A} (r : result A) : bool :=
  match r with Ok _ => true | Err _ => false end.

(** * ECDSA: Go's [crypto/ecdsa] *)

Module Ecdsa.

Import Elliptic.

Record PublicKey := {
  Curve : Elliptic.Curve;
  XY : Point
}.

Record PrivateKey := {
  Public : PublicKey;
  D : Z
}.

(** The random source, as the integers successively read from it. Reading
    past its end is the error of an exhausted reader. *)
Definition Rand : Type := list Z.

(** [randFieldElement]: a scalar in [1, N-1] from one read. *)
Definition randFieldElement (c : Elliptic.Curve) (rnd : Z) : Z :=
  rnd mod (N (Params c) - 1) + 1.


Definition bitLen (n : Z) : Z := if n =? 0 then 0 else Z.log2 n + 1.

(** [hashToInt]: the leftmost bits of the hash, as many as the order has. *)
Definition hashToInt (hash : list byte) (c : Elliptic.Curve) : Z :=
  let orderBits := bitLen (N (Params c)) in
  let orderBytes := (orderBits + 7) / 8 in
  let hash' := take (Z.to_nat orderBytes) hash in
  let ret := Bytes.be_decode hash' in
  let excess := Z.of_nat (length hash') * 8 - orderBits in
  if 0 <? excess then Z.shiftr ret excess else ret.

(** The loop of [ecdsa.Sign]: a nonce is drawn again as long as it gives
    [r = 0] or [s = 0]. *)
Fixpoint sign_loop (c : Elliptic.Curve) (d e : Z) (rand : Rand) : result (Z * Z) :=
  match rand with
  | [] => Err "EOF"
  | rnd :: rest =>
      let n := N (Params c) in
      let k := randFieldElement c rnd in
      let kInv := Z.invmod k n in
      let r := (ScalarBaseMult c k).1 mod n in
      if r =? 0 then sign_loop c d e rest
      else
        let s := ((d * r + e) * kInv) mod n in
        if s =? 0 then sign_loop c d e rest else Ok (r, s)
  end.

(** [ecdsa.Sign]. *)
Definition Sign (rand : Rand) (priv : PrivateKey) (hash : list byte) : result (Z * Z) :=
  let c := Curve (Public priv) in
  sign_loop c (D priv) (hashToInt hash c) rand.

(** [ecdsa.Verify]. *)
Definition Verify (pub : PublicKey) (hash : list byte) (r s : Z) : bool :=
  let c := Curve pub in
  let n := N (Params c) in
  if (r <=? 0) || (s <=? 0) then false
  else if (n <=? r) || (n <=? s) then false
  else
    let e := hashToInt hash c in
    let w := Z.invmod s n in
    let u1 := (e * w) mod n in
    let u2 := (r * w) mod n in
    let pt := Add c (ScalarBaseMult c u1) (ScalarMult c (XY pub) u2) in
    if is_infinity pt then false
    else pt.1 mod n =? r.





End Ecdsa.

(** * Package [keys]: the key pairs of the validators *)

Module Keys.

(** Modelled from the spec: the functions of package [crypto/keys] are
    missing from the sources, which hold its documentation only. [keys.Curve()]
    is the curve of the validators' keys, secp256k1. *)
Definition Curve : Elliptic.Curve := Elliptic.S256.


(** Modelled from the spec: [keys.FromPublicKey] is missing from the
    sources; the bytes of a public key, in the uncompressed form. *)
Definition FromPublicKey (pub : Ecdsa.PublicKey) : list byte :=
  Elliptic.Marshal (Ecdsa.Curve pub) (Ecdsa.XY pub).

(** Modelled from the spec: [keys.ToPublicKey] is missing from the
    sources; the public key read back from its bytes. The curve is an
    argument here; the package fixes it to [Curve]. *)
Definition ToPublicKey (c : Elliptic.Curve) (data : list byte) : option Ecdsa.PublicKey :=
  match Elliptic.Unmarshal c data with
  | Some pt => Some {| Ecdsa.Curve := c; Ecdsa.XY := pt |}
  | None => None
  end.


(** Modelled from the spec: [keys.Sign] and [keys.Verify] are missing from
    the sources; ECDSA signatures, made and checked as [crypto/ecdsa] does. *)
Definition Sign (rand : Ecdsa.Rand) (priv : Ecdsa.PrivateKey) (hash : list byte) : result (Z * Z) :=
  Ecdsa.Sign rand priv hash.

Definition Verify (pub : Ecdsa.PublicKey) (hash : list byte) (sig : Z * Z) : bool :=
  Ecdsa.Verify pub hash sig.1 sig.2.

End Keys.

(** * Package [peers] *)

Module Peers.

(** Modelled from the spec: the declaration of [Peer] is missing from the
    sources; its fields are those of the data model and of the literals of
    the tests. *)
Record Peer := {
  NetAddr : string;
  PubKeyHex : string;
  Moniker : string;
  ID : Z
}.

(** Modelled from the spec: [peers.NewPeer] is missing from the sources;
    its arguments are, as the tests call it, the public key, the address and
    the moniker. *)
Definition NewPeer (pubKeyHex netAddr moniker : string) : Peer :=
  {| NetAddr := netAddr; PubKeyHex := pubKeyHex; Moniker := moniker; ID := 0 |}.

End Peers.

(** * Package [hashgraph]: events, frames and blocks *)

Module Hashgraph.

(** Modelled from the spec: [block.go], [frame.go] and [event.go] are
    missing from the sources, which hold [block_test.go] only. The types below
    follow the data model of the design document and the literals of the
    tests. *)
Inductive TransactionType := PEER_ADD | PEER_REMOVE.

Record InternalTransaction := {
  itx_Type : TransactionType;
  itx_Peer : Peers.Peer;
  itx_Signature : string
}.

Definition NewInternalTransaction (tType : TransactionType) (peer : Peers.Peer)
  : InternalTransaction :=
  {| itx_Type := tType; itx_Peer := peer; itx_Signature := "" |}.

Record InternalTransactionReceipt := {
  InternalTransaction_of : InternalTransaction;
  Accepted : bool
}.

Definition AsAccepted (itx : InternalTransaction) : InternalTransactionReceipt :=
  {| InternalTransaction_of := itx; Accepted := true |}.

Definition AsRefused (itx : InternalTransaction) : InternalTransactionReceipt :=
  {| InternalTransaction_of := itx; Accepted := false |}.

(** A signature of a block by a validator, identified by the bytes of its
    public key. *)
Record BlockSignature := {
  Validator : list byte;
  bs_Index : Z;
  Signature : Z * Z
}.

Record EventBody := {
  ev_Transactions : list (list byte);
  ev_InternalTransactions : list InternalTransaction;
  ev_Parents : string * string;
  ev_Creator : list byte;
  ev_Index : Z;
  ev_Timestamp : Z;
  ev_BlockSignatures : list BlockSignature
}.

Record Event := {
  ev_Body : EventBody;
  ev_Signature : string
}.

(** An event of a frame: the event itself, its round-received and its
    consensus timestamp. *)
Record FrameEvent := {
  Core : Event;
  fe_Round : Z;
  fe_LamportTimestamp : Z
}.

Record Root := {
  root_Hash : string;
  root_Round : Z;
  root_RoundReceived : Z
}.

Record Frame := {
  Round : Z;
  Peers : list Peers.Peer;
  Roots : list (string * Root);
  Events : list FrameEvent;
  Timestamp : Z
}.

Record BlockBody := {
  Index : Z;
  RoundReceived : Z;
  bb_Timestamp : Z;
  StateHash : list byte;
  FrameHash : list byte;
  Transactions : list (list byte);
  InternalTransactions : list InternalTransaction;
  InternalTransactionReceipts : list InternalTransactionReceipt
}.

Record Block := {
  Body : BlockBody;
  Signatures : gmap string (Z * Z);
  PeerSet : list Peers.Peer
}.

(** The digests of the canonical encodings, taken as given. *)
Class Digest := {
  HashBlockBody : BlockBody → list byte;
  HashFrame : Frame → list byte
}.

(** A digest for running the examples: the sum of the bytes of the
    transactions, with the index of the block or the round of the frame, on
    four bytes. *)
Definition sum_bytes (txs : list (list byte)) : Z :=
  fold_left (λ acc b, acc + Bytes.to_Z b) (concat txs) 0.

Definition sum_digest : Digest := {|
  HashBlockBody body := Bytes.be_encode 4 (Index body + sum_bytes (Transactions body));
  HashFrame frame :=
    Bytes.be_encode 4
      (Round frame +
       sum_bytes (concat ((λ e, ev_Transactions (ev_Body (Core e))) <$> Events frame)))
|}.

(** The bytes of a text, as [[]byte("...")] gives them. *)
Definition bytes_of (s : string) : list byte := String.list_byte_of_string s.

(** Modelled from the spec: [hashgraph.NewBlock] is missing from the
    sources; its arguments are those of the calls in [block_test.go]. A new
    block has no receipt and no signature yet. *)
Definition NewBlock (blockIndex roundReceived : Z) (frameHash : list byte)
    (peerSlice : list Peers.Peer) (txs : list (list byte))
    (itxs : list InternalTransaction) (timestamp : Z) : Block :=
  {| Body := {| Index := blockIndex;
                RoundReceived := roundReceived;
                bb_Timestamp := timestamp;
                StateHash := [];
                FrameHash := frameHash;
                Transactions := txs;
                InternalTransactions := itxs;
                InternalTransactionReceipts := [] |};
     Signatures := ∅;
     PeerSet := peerSlice |}.

(** Modelled from the spec: [hashgraph.NewBlockFromFrame] is missing from
    the sources; the block is constructed from the flattened transactions and
    internal transactions of the frame: the frame is hashed, then a loop over
    its events appends their transactions and internal transactions. *)
Definition NewBlockFromFrame `{Digest} (blockIndex : Z) (frame : Frame) : result Block :=
  let frameHash := HashFrame frame in
  let '(transactions, internalTransactions) :=
    fold_left
      (λ acc e,
         (acc.1 ++ ev_Transactions (ev_Body (Core e)),
          acc.2 ++ ev_InternalTransactions (ev_Body (Core e))))
      (Events frame) ([], []) in
  Ok (NewBlock blockIndex (Round frame) frameHash (Peers frame)
        transactions internalTransactions (Timestamp frame)).

(** Modelled from the spec: [block.Sign] is missing from the sources; a
    signature of a block is an ECDSA signature over the hash of its body. *)
Definition Sign `{Digest} (rand : Ecdsa.Rand) (b : Block) (privKey : Ecdsa.PrivateKey)
  : result BlockSignature :=
  match Keys.Sign rand privKey (HashBlockBody (Body b)) with
  | Err e => Err e
  | Ok sig =>
      Ok {| Validator := Keys.FromPublicKey (Ecdsa.Public privKey);
            bs_Index := Index (Body b);
            Signature := sig |}
  end.




(** Modelled from the spec: [block.Verify] is missing from the sources;
    the signature is checked against the hash of the body with the public key
    that the signature names. The curve is an argument, as for
    [Keys.ToPublicKey]. *)
Definition Verify `{Digest} (c : Elliptic.Curve) (b : Block) (sig : BlockSignature)
  : result bool :=
  match Keys.ToPublicKey c (Validator sig) with
  | None => Err "invalid public key"
  | Some pubKey => Ok (Keys.Verify pubKey (HashBlockBody (Body b)) (Signature sig))
  end.

(** [createTestBlock] of [block_test.go]. *)
Definition createTestBlock : Block :=
  let block :=
    NewBlock 0 1 (bytes_of "framehash") []
      [bytes_of "abc"; bytes_of "def"; bytes_of "ghi"]
      [NewInternalTransaction PEER_ADD (Peers.NewPeer "peer1" "paris" "peer1");
       NewInternalTransaction PEER_REMOVE (Peers.NewPeer "peer2" "london" "peer2")]
      0 in
  let receipts :=
    fold_left (λ receipts itx, receipts ++ [AsAccepted itx])
              (InternalTransactions (Body block)) [] in
  {| Body := {| Index := Index (Body block);
                RoundReceived := RoundReceived (Body block);
                bb_Timestamp := bb_Timestamp (Body block);
                StateHash := StateHash (Body block);
                FrameHash := FrameHash (Body block);
                Transactions := Transactions (Body block);
                InternalTransactions := InternalTransactions (Body block);
                InternalTransactionReceipts := receipts |};
     Signatures := Signatures block;
     PeerSet := PeerSet block |}.

(** The frame of [TestNewBlockFromFrame]. *)
Definition test_transactions : list (list byte) :=
  bytes_of <$> ["transaction1"; "transaction2"; "transaction3"; "transaction4";
                "transaction5"; "transaction6"; "transaction7"; "transaction8";
                "transaction9"].

Definition test_internalTransactions : list InternalTransaction :=
  [NewInternalTransaction PEER_ADD (Peers.NewPeer "peer1000.pub" "peer1000.addr" "peer1000");
   NewInternalTransaction PEER_ADD (Peers.NewPeer "peer1001.pub" "peer1001.addr" "peer1001");
   NewInternalTransaction PEER_ADD (Peers.NewPeer "peer1002.pub" "peer1002.addr" "peer1002")].

Definition test_event (txs : list (list byte)) (itxs : list InternalTransaction) : FrameEvent :=
  {| Core := {| ev_Body := {| ev_Transactions := txs;
                              ev_InternalTransactions := itxs;
                              ev_Parents := ("", "");
                              ev_Creator := [];
                              ev_Index := 0;
                              ev_Timestamp := 0;
                              ev_BlockSignatures := [] |};
                ev_Signature := "" |};
     fe_Round := 0;
     fe_LamportTimestamp := 0 |}.

Definition test_frame : Frame :=
  {| Round := 56;
     Peers := [Peers.NewPeer "peer1.pub" "peer1.addr" "peer1";
               Peers.NewPeer "peer2.pub" "peer2.addr" "peer2";
               Peers.NewPeer "peer3.pub" "peer3.addr" "peer3"];
     Roots := [];
     Events := [test_event (take 3 test_transactions) (take 1 test_internalTransactions);
                test_event (take 3 (drop 3 test_transactions))
                           (take 1 (drop 1 test_internalTransactions));
                test_event (drop 6 test_transactions) (drop 2 test_internalTransactions)];
     Timestamp := 123456789 |}.

End Hashgraph.

(** * Package [node/state] *)

Module State.

(** Modelled from the spec: the declaration of [state.State] is missing
    from the sources; the six states of the node state machine. *)
Inductive State :=
| Babbling
| CatchingUp
| Joining
| Leaving
| Suspended
| Shutdown.

#[global] Instance State_eq_dec : EqDecision State.
Proof. solve_decision. Defined.

End State.

(** * Package [proxy]: the application gateway *)

Module Proxy.

(** Modelled from the spec: [CommitResponse] is declared outside the
    sources; committing a block yields the state hash after execution and
    the decisions on its internal transactions. *)
Record CommitResponse := {
  cr_StateHash : list byte;
  cr_InternalTransactionReceipts : list Hashgraph.InternalTransactionReceipt
}.

(** A channel, as the queue of what was sent and not yet received. *)
Definition Chan (A : Type) : Type := list A.

(** The interface [AppGateway]. An implementation has a state of its own,
    [App]; a method reads it and leaves a new one. An [error] result is
    [None] for [nil]. *)
Record AppGateway (App : Type) := {
  SubmitCh : App → Chan (list byte);
  CommitBlock : Hashgraph.Block → App → result CommitResponse * App;
  GetSnapshot : Z → App → result (list byte) * App;
  Restore : list byte → App → option string * App;
  OnStateChanged : State.State → App → option string * App
}.

Arguments SubmitCh {App} _ _.
Arguments CommitBlock {App} _ _ _.
Arguments GetSnapshot {App} _ _ _.
Arguments Restore {App} _ _ _.
Arguments OnStateChanged {App} _ _ _.

(** The operations of the gateway, indexed by what each one returns. *)
Inductive Op : Type → Type :=
| OpSubmitCh : Op (Chan (list byte))
| OpCommitBlock (block : Hashgraph.Block) : Op (result CommitResponse)
| OpGetSnapshot (blockIndex : Z) : Op (result (list byte))
| OpRestore (snapshot : list byte) : Op (option string)
| OpOnStateChanged (st : State.State) : Op (option string).

(** The names of the operations. *)
Inductive OpName :=
| NSubmitCh | NCommitBlock | NGetSnapshot | NRestore | NOnStateChanged.

#[global] Instance OpName_eq_dec : EqDecision OpName.
Proof. solve_decision. Defined.

Definition op_name {R} (op : Op R) : OpName :=
  match op with
  | OpSubmitCh => NSubmitCh
  | OpCommitBlock _ => NCommitBlock
  | OpGetSnapshot _ => NGetSnapshot
  | OpRestore _ => NRestore
  | OpOnStateChanged _ => NOnStateChanged
  end.

Definition all_ops : list OpName :=
  [NSubmitCh; NCommitBlock; NGetSnapshot; NRestore; NOnStateChanged].

(** Dynamic dispatch: an operation run on an implementation. *)
Definition call {App R} (g : AppGateway App) (op : Op R) (app : App) : R * App :=
  match op in Op R return R * App with
  | OpSubmitCh => (SubmitCh g app, app)
  | OpCommitBlock b => CommitBlock g b app
  | OpGetSnapshot i => GetSnapshot g i app
  | OpRestore s => Restore g s app
  | OpOnStateChanged st => OnStateChanged g st app
  end.

(** An implementation put together from a handler of the operations. *)
Definition of_handler {App} (h : ∀ R, Op R → App → R * App) : AppGateway App := {|
  SubmitCh := λ app, (h _ OpSubmitCh app).1;
  CommitBlock := λ b, h _ (OpCommitBlock b);
  GetSnapshot := λ i, h _ (OpGetSnapshot i);
  Restore := λ s, h _ (OpRestore s);
  OnStateChanged := λ st, h _ (OpOnStateChanged st)
|}.

(** A value of interface type: an implementation with its state. *)
Record AppGatewayValue := {
  App : Type;
  gateway : AppGateway App;
  app : App
}.

(** Modelled from the spec: the in-memory dummy application, one of the
    alternative implementations. It keeps the transactions of the committed
    blocks, accepts every internal transaction, and takes the bytes
    committed so far as its state; a snapshot is the state after a block. *)
Record DummyState := {
  submitCh : Chan (list byte);
  committed : list (list byte);
  snapshots : gmap Z (list byte);
  nodeState : option State.State
}.

Definition dummy_CommitBlock (b : Hashgraph.Block) (d : DummyState)
  : result CommitResponse * DummyState :=
  let txs := committed d ++ Hashgraph.Transactions (Hashgraph.Body b) in
  let stateHash := concat txs in
  (Ok {| cr_StateHash := stateHash;
         cr_InternalTransactionReceipts :=
           Hashgraph.AsAccepted <$> Hashgraph.InternalTransactions (Hashgraph.Body b) |},
   {| submitCh := submitCh d;
      committed := txs;
      snapshots := <[Hashgraph.Index (Hashgraph.Body b) := stateHash]> (snapshots d);
      nodeState := nodeState d |}).

Definition dummy_GetSnapshot (blockIndex : Z) (d : DummyState)
  : result (list byte) * DummyState :=
  match snapshots d !! blockIndex with
  | Some snap => (Ok snap, d)
  | None => (Err "snapshot not found", d)
  end.

Definition dummy_Restore (snapshot : list byte) (d : DummyState)
  : option string * DummyState :=
  (None, {| submitCh := submitCh d; committed := [snapshot];
            snapshots := snapshots d; nodeState := nodeState d |}).

Definition dummy_OnStateChanged (st : State.State) (d : DummyState)
  : option string * DummyState :=
  (None, {| submitCh := submitCh d; committed := committed d;
            snapshots := snapshots d; nodeState := Some st |}).

Definition InmemDummyClient : AppGateway DummyState := {|
  SubmitCh := submitCh;
  CommitBlock := dummy_CommitBlock;
  GetSnapshot := dummy_GetSnapshot;
  Restore := dummy_Restore;
  OnStateChanged := dummy_OnStateChanged
|}.

Definition dummy_initial : DummyState :=
  {| submitCh := []; committed := []; snapshots := ∅; nodeState := None |}.

Definition NewInmemDummyClient : AppGatewayValue :=
  {| App := DummyState; gateway := InmemDummyClient; app := dummy_initial |}.

End Proxy.

(** * Package [logrus]: levels and loggers *)

Module Logrus.

(** The levels, in the order of their numbers 0 to 6. *)
Inductive Level :=
| PanicLevel
| FatalLevel
| ErrorLevel
| WarnLevel
| InfoLevel
| DebugLevel
| TraceLevel.

#[global] Instance Level_eq_dec : EqDecision Level.
Proof. solve_decision. Defined.

Inductive Formatter := DefaultTextFormatter | PrefixedTextFormatter.

Record Logger := {
  Level_of : Level;
  Formatter_of : Formatter
}.

(** [logrus.New()]. *)
Definition New : Logger := {| Level_of := InfoLevel; Formatter_of := DefaultTextFormatter |}.

(** A log entry: its logger and its fields. *)
Record Entry := {
  entry_Logger : Logger;
  entry_Data : list (string * string)
}.

Definition WithField (l : Logger) (key value : string) : Entry :=
  {| entry_Logger := l; entry_Data := [(key, value)] |}.

End Logrus.

(** * Package [config] ([src/config/config.go]) *)

Module Config.

Definition DefaultKeyfile : string := "priv_key".
Definition DefaultBadgerFile : string := "badger_db".
Definition DefaultCertFile : string := "cert.pem".

(** [time.Duration] counts nanoseconds. *)
Definition Millisecond : Z := 1000000.

Definition DefaultLogLevel : string := "debug".
Definition DefaultBindAddr : string := "127.0.0.1:1337".
Definition DefaultServiceAddr : string := "127.0.0.1:8000".
Definition DefaultHeartbeatTimeout : Z := 10 * Millisecond.
Definition DefaultSlowHeartbeatTimeout : Z := 1000 * Millisecond.
Definition DefaultTCPTimeout : Z := 1000 * Millisecond.
Definition DefaultJoinTimeout : Z := 10000 * Millisecond.
Definition DefaultCacheSize : Z := 10000.
Definition DefaultSyncLimit : Z := 1000.
Definition DefaultMaxPool : Z := 2.
Definition DefaultStore : bool := false.
Definition DefaultMaintenanceMode : bool := false.
Definition DefaultSuspendLimit : Z := 100.
Definition DefaultWebRTC : bool := false.
Definition DefaultSignalAddr : string := "127.0.0.1:2443".
Definition DefaultSignalRealm : string := "office".
Definition DefaultSignalSkipVerify : bool := false.

(** [webrtc.ICEServer], of which the configuration sets the URLs. *)
Record ICEServer := {
  URLs : list string
}.

(** What the functions of the package read from the process: the variable
    [HOME], the home directory of the current user when it can be looked
    up, and [runtime.GOOS]. *)
Inductive Goos := darwin | windows | other_os.

Record Env := {
  env_HOME : string;
  env_user_HomeDir : option string;
  env_GOOS : Goos
}.

(** The structure [Config]. *)
Record Config := {
  DataDir : string;
  LogLevel_of : string;
  BindAddr : string;
  AdvertiseAddr : string;
  NoService : bool;
  ServiceAddr : string;
  HeartbeatTimeout : Z;
  SlowHeartbeatTimeout : Z;
  MaxPool : Z;
  TCPTimeout : Z;
  JoinTimeout : Z;
  SyncLimit : Z;
  EnableFastSync : bool;
  Store : bool;
  DatabaseDir : string;
  CacheSize : Z;
  Bootstrap : bool;
  MaintenanceMode : bool;
  SuspendLimit : Z;
  Moniker : string;
  WebRTC : bool;
  SignalAddr : string;
  SignalRealm : string;
  SignalSkipVerify : bool;
  ICEServers : list ICEServer;
  Proxy_of : option Proxy.AppGatewayValue;
  Key : option Ecdsa.PrivateKey;
  logger : option Logrus.Logger
}.

(** [HomeDir]. *)
Definition HomeDir (env : Env) : string :=
  if decide (env_HOME env ≠ "") then env_HOME env
  else match env_user_HomeDir env with
       | Some home => home
       | None => ""
       end.

(** [DefaultDataDir]. *)
Definition DefaultDataDir (env : Env) : string :=
  let home := HomeDir env in
  if decide (home ≠ "") then
    match env_GOOS env with
    | darwin => Filepath.Join [home; ".Kdag"]
    | windows => Filepath.Join [home; "AppData"; "Roaming"; "Kdag"]
    | other_os => Filepath.Join [home; ".kdag"]
    end
  else "".

(** [DefaultDatabaseDir]. *)
Definition DefaultDatabaseDir (env : Env) : string :=
  Filepath.Join [DefaultDataDir env; DefaultBadgerFile].

(** [DefaultICEServers]. *)
Definition DefaultICEServers : list ICEServer :=
  [ {| URLs := ["stun:stun.l.google.com:19302"] |} ].

(** [NewDefaultConfig]. The fields that the literal leaves out have the
    zero value of their type. *)
Definition NewDefaultConfig (env : Env) : Config := {|
  DataDir := DefaultDataDir env;
  LogLevel_of := DefaultLogLevel;
  BindAddr := DefaultBindAddr;
  AdvertiseAddr := "";
  NoService := false;
  ServiceAddr := DefaultServiceAddr;
  HeartbeatTimeout := DefaultHeartbeatTimeout;
  SlowHeartbeatTimeout := DefaultSlowHeartbeatTimeout;
  MaxPool := DefaultMaxPool;
  TCPTimeout := DefaultTCPTimeout;
  JoinTimeout := DefaultJoinTimeout;
  SyncLimit := DefaultSyncLimit;
  EnableFastSync := false;
  Store := DefaultStore;
  DatabaseDir := DefaultDatabaseDir env;
  CacheSize := DefaultCacheSize;
  Bootstrap := false;
  MaintenanceMode := DefaultMaintenanceMode;
  SuspendLimit := DefaultSuspendLimit;
  Moniker := "";
  WebRTC := DefaultWebRTC;
  SignalAddr := DefaultSignalAddr;
  SignalRealm := DefaultSignalRealm;
  SignalSkipVerify := DefaultSignalSkipVerify;
  ICEServers := DefaultICEServers;
  Proxy_of := None;
  Key := None;
  logger := None
|}.

(** Assignments to the fields that the package writes. *)
Definition set_DataDir (v : string) (c : Config) : Config := {|
  DataDir := v;
  LogLevel_of := LogLevel_of c; BindAddr := BindAddr c;
  AdvertiseAddr := AdvertiseAddr c; NoService := NoService c;
  ServiceAddr := ServiceAddr c; HeartbeatTimeout := HeartbeatTimeout c;
  SlowHeartbeatTimeout := SlowHeartbeatTimeout c; MaxPool := MaxPool c;
  TCPTimeout := TCPTimeout c; JoinTimeout := JoinTimeout c;
  SyncLimit := SyncLimit c; EnableFastSync := EnableFastSync c;
  Store := Store c; DatabaseDir := DatabaseDir c; CacheSize := CacheSize c;
  Bootstrap := Bootstrap c; MaintenanceMode := MaintenanceMode c;
  SuspendLimit := SuspendLimit c; Moniker := Moniker c; WebRTC := WebRTC c;
  SignalAddr := SignalAddr c; SignalRealm := SignalRealm c;
  SignalSkipVerify := SignalSkipVerify c; ICEServers := ICEServers c;
  Proxy_of := Proxy_of c; Key := Key c; logger := logger c
|}.

Definition set_DatabaseDir (v : string) (c : Config) : Config := {|
  DataDir := DataDir c;
  LogLevel_of := LogLevel_of c; BindAddr := BindAddr c;
  AdvertiseAddr := AdvertiseAddr c; NoService := NoService c;
  ServiceAddr := ServiceAddr c; HeartbeatTimeout := HeartbeatTimeout c;
  SlowHeartbeatTimeout := SlowHeartbeatTimeout c; MaxPool := MaxPool c;
  TCPTimeout := TCPTimeout c; JoinTimeout := JoinTimeout c;
  SyncLimit := SyncLimit c; EnableFastSync := EnableFastSync c;
  Store := Store c; DatabaseDir := v; CacheSize := CacheSize c;
  Bootstrap := Bootstrap c; MaintenanceMode := MaintenanceMode c;
  SuspendLimit := SuspendLimit c; Moniker := Moniker c; WebRTC := WebRTC c;
  SignalAddr := SignalAddr c; SignalRealm := SignalRealm c;
  SignalSkipVerify := SignalSkipVerify c; ICEServers := ICEServers c;
  Proxy_of := Proxy_of c; Key := Key c; logger := logger c
|}.

Definition set_logger (v : option Logrus.Logger) (c : Config) : Config := {|
  DataDir := DataDir c;
  LogLevel_of := LogLevel_of c; BindAddr := BindAddr c;
  AdvertiseAddr := AdvertiseAddr c; NoService := NoService c;
  ServiceAddr := ServiceAddr c; HeartbeatTimeout := HeartbeatTimeout c;
  SlowHeartbeatTimeout := SlowHeartbeatTimeout c; MaxPool := MaxPool c;
  TCPTimeout := TCPTimeout c; JoinTimeout := JoinTimeout c;
  SyncLimit := SyncLimit c; EnableFastSync := EnableFastSync c;
  Store := Store c; DatabaseDir := DatabaseDir c; CacheSize := CacheSize c;
  Bootstrap := Bootstrap c; MaintenanceMode := MaintenanceMode c;
  SuspendLimit := SuspendLimit c; Moniker := Moniker c; WebRTC := WebRTC c;
  SignalAddr := SignalAddr c; SignalRealm := SignalRealm c;
  SignalSkipVerify := SignalSkipVerify c; ICEServers := ICEServers c;
  Proxy_of := Proxy_of c; Key := Key c; logger := v
|}.

Definition set_Store (v : bool) (c : Config) : Config := {|
  DataDir := DataDir c;
  LogLevel_of := LogLevel_of c; BindAddr := BindAddr c;
  AdvertiseAddr := AdvertiseAddr c; NoService := NoService c;
  ServiceAddr := ServiceAddr c; HeartbeatTimeout := HeartbeatTimeout c;
  SlowHeartbeatTimeout := SlowHeartbeatTimeout c; MaxPool := MaxPool c;
  TCPTimeout := TCPTimeout c; JoinTimeout := JoinTimeout c;
  SyncLimit := SyncLimit c; EnableFastSync := EnableFastSync c;
  Store := v; DatabaseDir := DatabaseDir c; CacheSize := CacheSize c;
  Bootstrap := Bootstrap c; MaintenanceMode := MaintenanceMode c;
  SuspendLimit := SuspendLimit c; Moniker := Moniker c; WebRTC := WebRTC c;
  SignalAddr := SignalAddr c; SignalRealm := SignalRealm c;
  SignalSkipVerify := SignalSkipVerify c; ICEServers := ICEServers c;
  Proxy_of := Proxy_of c; Key := Key c; logger := logger c
|}.

Definition set_Bootstrap (v : bool) (c : Config) : Config := {|
  DataDir := DataDir c;
  LogLevel_of := LogLevel_of c; BindAddr := BindAddr c;
  AdvertiseAddr := AdvertiseAddr c; NoService := NoService c;
  ServiceAddr := ServiceAddr c; HeartbeatTimeout := HeartbeatTimeout c;
  SlowHeartbeatTimeout := SlowHeartbeatTimeout c; MaxPool := MaxPool c;
  TCPTimeout := TCPTimeout c; JoinTimeout := JoinTimeout c;
  SyncLimit := SyncLimit c; EnableFastSync := EnableFastSync c;
  Store := Store c; DatabaseDir := DatabaseDir c; CacheSize := CacheSize c;
  Bootstrap := v; MaintenanceMode := MaintenanceMode c;
  SuspendLimit := SuspendLimit c; Moniker := Moniker c; WebRTC := WebRTC c;
  SignalAddr := SignalAddr c; SignalRealm := SignalRealm c;
  SignalSkipVerify := SignalSkipVerify c; ICEServers := ICEServers c;
  Proxy_of := Proxy_of c; Key := Key c; logger := logger c
|}.

Definition set_MaintenanceMode (v : bool) (c : Config) : Config := {|
  DataDir := DataDir c;
  LogLevel_of := LogLevel_of c; BindAddr := BindAddr c;
  AdvertiseAddr := AdvertiseAddr c; NoService := NoService c;
  ServiceAddr := ServiceAddr c; HeartbeatTimeout := HeartbeatTimeout c;
  SlowHeartbeatTimeout := SlowHeartbeatTimeout c; MaxPool := MaxPool c;
  TCPTimeout := TCPTimeout c; JoinTimeout := JoinTimeout c;
  SyncLimit := SyncLimit c; EnableFastSync := EnableFastSync c;
  Store := Store c; DatabaseDir := DatabaseDir c; CacheSize := CacheSize c;
  Bootstrap := Bootstrap c; MaintenanceMode := v;
  SuspendLimit := SuspendLimit c; Moniker := Moniker c; WebRTC := WebRTC c;
  SignalAddr := SignalAddr c; SignalRealm := SignalRealm c;
  SignalSkipVerify := SignalSkipVerify c; ICEServers := ICEServers c;
  Proxy_of := Proxy_of c; Key := Key c; logger := logger c
|}.

(** [SetDataDir]: the receiver is a pointer; the configuration after the
    call is returned. *)
Definition SetDataDir (env : Env) (c : Config) (dataDir : string) : Config :=
  let c := set_DataDir dataDir c in
  if decide (DatabaseDir c = DefaultDatabaseDir env) then
    set_DatabaseDir (Filepath.Join [dataDir; DefaultBadgerFile]) c
  else c.

(** [Keyfile]. *)
Definition Keyfile (c : Config) : string :=
  Filepath.Join [DataDir c; DefaultKeyfile].

(** [CertFile]. *)
Definition CertFile (c : Config) : string :=
  Filepath.Join [DataDir c; DefaultCertFile].

(** [LogLevel]: a string parsed into a Logrus level. *)
Definition LogLevel (l : string) : Logrus.Level :=
  if decide (l = "debug") then Logrus.DebugLevel
  else if decide (l = "info") then Logrus.InfoLevel
  else if decide (l = "warn") then Logrus.WarnLevel
  else if decide (l = "error") then Logrus.ErrorLevel
  else if decide (l = "fatal") then Logrus.FatalLevel
  else if decide (l = "panic") then Logrus.PanicLevel
  else Logrus.DebugLevel.

(** [Logger]: the logger is made on the first call and kept. *)
Definition Logger (c : Config) : Logrus.Entry * Config :=
  let c :=
    match logger c with
    | None =>
        set_logger (Some {| Logrus.Level_of := LogLevel (LogLevel_of c);
                            Logrus.Formatter_of := Logrus.PrefixedTextFormatter |}) c
    | Some _ => c
    end in
  match logger c with
  | Some l => (Logrus.WithField l "prefix" "kdag", c)
  | None => (Logrus.WithField Logrus.New "prefix" "kdag", c)
  end.

(** An assignment to the exported field [LogLevel]. *)
Definition set_LogLevel (v : string) (c : Config) : Config := {|
  DataDir := DataDir c;
  LogLevel_of := v; BindAddr := BindAddr c;
  AdvertiseAddr := AdvertiseAddr c; NoService := NoService c;
  ServiceAddr := ServiceAddr c; HeartbeatTimeout := HeartbeatTimeout c;
  SlowHeartbeatTimeout := SlowHeartbeatTimeout c; MaxPool := MaxPool c;
  TCPTimeout := TCPTimeout c; JoinTimeout := JoinTimeout c;
  SyncLimit := SyncLimit c; EnableFastSync := EnableFastSync c;
  Store := Store c; DatabaseDir := DatabaseDir c; CacheSize := CacheSize c;
  Bootstrap := Bootstrap c; MaintenanceMode := MaintenanceMode c;
  SuspendLimit := SuspendLimit c; Moniker := Moniker c; WebRTC := WebRTC c;
  SignalAddr := SignalAddr c; SignalRealm := SignalRealm c;
  SignalSkipVerify := SignalSkipVerify c; ICEServers := ICEServers c;
  Proxy_of := Proxy_of c; Key := Key c; logger := logger c
|}.

(** [NewTestConfig]: the default configuration with the logger that
    [common.NewTestLogger(t, level)] returns; that pointer is the
    argument [testLogger], [None] for [nil]. *)
Definition NewTestConfig (env : Env) (testLogger : option Logrus.Logger) : Config :=
  let config := NewDefaultConfig env in
  set_logger testLogger config.

End Config.

(** * Package [node]: the state machine of a node *)

Module Node.

Import State.

(** What the controller of a node reacts to. *)
Inductive Input :=
| Heartbeat (peer : Z)
| SubmitTx (tx : list byte)
| SyncResponse (from : Z) (events : list Hashgraph.Event)
| SyncRequest (from : Z)
| EagerSyncRequest (from : Z) (events : list Hashgraph.Event)
| FastForwardResponse (block : Hashgraph.Block) (frame : Hashgraph.Frame)
| JoinCommitted
| RemovalCommitted
| TooFarBehind
| SuspendLimitExceeded
| Leave
| Resume
| ShutdownSignal.

(** What the node does in reaction. *)
Inductive Action :=
| SendSyncRequest (to : Z)
| SendSyncResponse (to : Z)
| SendEagerSyncRequest (to : Z)
| SendFastForwardRequest (to : Z)
| SendJoinRequest (to : Z)
| SendNotReady (to : Z)
| CreateEvent (index : Z) (txs : list (list byte)).

Record Node := {
  state : State;
  conf : Config.Config;
  mempool : list (list byte);
  head : Z
}.

Definition setState (st : State) (n : Node) : Node :=
  {| state := st; conf := conf n; mempool := mempool n; head := head n |}.

(** A new self-event takes the pending transactions. *)
Definition createEvent (n : Node) : Node * list Action :=
  ({| state := state n; conf := conf n; mempool := []; head := head n + 1 |},
   [CreateEvent (head n + 1) (mempool n)]).

Definition enqueue (tx : list byte) (n : Node) : Node :=
  {| state := state n; conf := conf n; mempool := mempool n ++ [tx]; head := head n |}.

(** Modelled from the spec: [node.NewNode] is missing from the sources; a
    node starts suspended in maintenance mode, joining when it has no
    peer-set to start from, and babbling otherwise. *)
Definition NewNode (c : Config.Config) (hasPeerSet : bool) : Node :=
  {| state := if Config.MaintenanceMode c then Suspended
              else if hasPeerSet then Babbling else Joining;
     conf := c;
     mempool := [];
     head := -1 |}.

(** Modelled from the spec: package [node] is missing from the sources.
    One reaction of the controller, by the states and transitions of the
    design document: a babbling node pulls from a peer on every heartbeat and
    creates an event after each exchange; a node catching up, joining or
    leaving creates no event; a suspended node neither syncs nor creates
    events and leaves the state only when it is resumed; shutdown is
    terminal. *)
Definition step (n : Node) (i : Input) : Node * list Action :=
  match state n with
  | Babbling =>
      match i with
      | Heartbeat peer => (n, [SendSyncRequest peer])
      | SubmitTx tx => (enqueue tx n, [])
      | SyncResponse from _ =>
          let '(n', created) := createEvent n in
          (n', SendEagerSyncRequest from :: created)
      | SyncRequest from => (n, [SendSyncResponse from])
      | EagerSyncRequest _ _ => createEvent n
      | TooFarBehind =>
          if Config.EnableFastSync (conf n) then (setState CatchingUp n, []) else (n, [])
      | SuspendLimitExceeded => (setState Suspended n, [])
      | Leave => (setState Leaving n, [])
      | ShutdownSignal => (setState Shutdown n, [])
      | _ => (n, [])
      end
  | CatchingUp =>
      match i with
      | Heartbeat peer => (n, [SendFastForwardRequest peer])
      | FastForwardResponse _ _ => (setState Babbling n, [])
      | SyncRequest from | EagerSyncRequest from _ => (n, [SendNotReady from])
      | ShutdownSignal => (setState Shutdown n, [])
      | _ => (n, [])
      end
  | Joining =>
      match i with
      | Heartbeat peer => (n, [SendJoinRequest peer])
      | JoinCommitted => (setState Babbling n, [])
      | SyncRequest from | EagerSyncRequest from _ => (n, [SendNotReady from])
      | ShutdownSignal => (setState Shutdown n, [])
      | _ => (n, [])
      end
  | Leaving =>
      match i with
      | RemovalCommitted | ShutdownSignal => (setState Shutdown n, [])
      | SyncRequest from | EagerSyncRequest from _ => (n, [SendNotReady from])
      | _ => (n, [])
      end
  | Suspended =>
      match i with
      | Resume => (setState Babbling n, [])
      | SyncRequest from | EagerSyncRequest from _ => (n, [SendNotReady from])
      | ShutdownSignal => (setState Shutdown n, [])
      | _ => (n, [])
      end
  | Shutdown => (n, [])
  end.





(** [node.Shutdown]. *)
Definition ShutdownNode (n : Node) : Node := (step n ShutdownSignal).1.

End Node.

(** * Package [kdag]: a node put together from its configuration *)

Module Kdag.

(** The file system: what is found under each path. A database directory
    is kept as the key-value data it holds. *)
Inductive Entry :=
| RegularFile (content : list byte)
| Directory
| Database (kv : gmap string (list byte)).


(** The errors of the file system that the code tells apart. *)
Definition ErrNotExist : string := "no such file or directory".
Definition ErrExist : string := "file exists".

(** [os.IsNotExist]. *)
Definition IsNotExist (err : string) : bool := bool_decide (err = ErrNotExist).

(** [os.Rename]: fails when there is nothing at the old path, and when
    the new path is taken. *)
Definition Rename (fs : gmap string Entry) (oldpath newpath : string)
  : result (gmap string Entry) :=
  match fs !! Filepath.Clean oldpath with
  | None => Err ErrNotExist
  | Some e =>
      match fs !! Filepath.Clean newpath with
      | Some _ => Err ErrExist
      | None => Ok (<[Filepath.Clean newpath := e]> (delete (Filepath.Clean oldpath) fs))
      end
  end.

(** [ioutil.ReadDir]: the names of the entries of a directory, sorted. *)
Definition ReadDir (fs : gmap string Entry) (dirname : string) : list string :=
  merge_sort String.le
    (Filepath.Base <$>
       filter (λ p, Filepath.Dir p = Filepath.Clean dirname ∧ p ≠ Filepath.Clean dirname)
              (elements (dom fs))).

Inductive Store :=
| InmemStore (cacheSize : Z)
| BadgerStore (cacheSize : Z) (path : string) (maintenanceMode : bool)
    (kv : gmap string (list byte)).

(** Modelled from the spec: [NewBadgerStore] is missing from the sources;
    the database at [path] is opened, and created empty when there is none. *)
Definition NewBadgerStore (cacheSize : Z) (path : string) (maintenanceMode : bool)
    (fs : gmap string Entry) : result (Store * gmap string Entry) :=
  match fs !! Filepath.Clean path with
  | Some (Database kv) => Ok (BadgerStore cacheSize path maintenanceMode kv, fs)
  | Some _ => Err "not a database"
  | None =>
      Ok (BadgerStore cacheSize path maintenanceMode ∅,
          <[Filepath.Clean path := Database ∅]> fs)
  end.

Record Kdag := {
  Config_of : Config.Config;
  Store_of : option Store;
  Node_of : option Node.Node
}.

(** [NewKdag]. *)
Definition NewKdag (c : Config.Config) : Kdag :=
  {| Config_of := c; Store_of := None; Node_of := None |}.

(** Modelled from the spec: the name of the backup of a database is
    missing from the sources; it is [badger_db_<timestamp>], the timestamp, as
    text, after an underscore. *)
Definition backupFileName (base timestamp : string) : string :=
  base +:+ "_" +:+ timestamp.

(** Modelled from the spec: [kdag.go] is missing from the sources. The
    configuration is settled before anything is opened: maintenance mode
    forces bootstrap, which itself forces the persistent store, as the
    comments of [Config.MaintenanceMode] and [Config.Bootstrap] say. *)
Definition validateConfig (env : Config.Env) (k : Kdag) : Kdag :=
  let c := Config.SetDataDir env (Config_of k) (Config.DataDir (Config_of k)) in
  let c := if Config.MaintenanceMode c then Config.set_Bootstrap true c else c in
  let c := if Config.Bootstrap c then Config.set_Store true c else c in
  {| Config_of := c; Store_of := Store_of k; Node_of := Node_of k |}.

(** Modelled from the spec: [initStore] is missing from the sources, which
    hold its test only. Without [Store] the store is in memory. A persistent
    store opened over an existing database renames the database with a
    timestamped suffix and creates a fresh one, unless bootstrap is set, in
    which case the existing database is opened. With no database there is
    nothing to rename; any other failure of the renaming is returned. [now] is
    the time, as text. *)
Definition initStore (k : Kdag) (fs : gmap string Entry) (now : string)
  : result (Kdag * gmap string Entry) :=
  let c := Config_of k in
  if negb (Config.Store c) then
    Ok ({| Config_of := c; Store_of := Some (InmemStore (Config.CacheSize c));
           Node_of := Node_of k |}, fs)
  else
    let dbPath := Config.DatabaseDir c in
    let backedUp :=
      if negb (Config.Bootstrap c) then
        match Rename fs dbPath (backupFileName dbPath now) with
        | Ok fs' => Ok fs'
        | Err e => if IsNotExist e then Ok fs else Err e
        end
      else Ok fs in
    match backedUp with
    | Err e => Err e
    | Ok fs =>
        match NewBadgerStore (Config.CacheSize c) dbPath (Config.MaintenanceMode c) fs with
        | Err e => Err e
        | Ok (dbStore, fs) =>
            Ok ({| Config_of := c; Store_of := Some dbStore; Node_of := Node_of k |}, fs)
        end
    end.

(** The file of the initial peer-set. *)
Definition DefaultPeersFile : string := "peers.json".

Definition hasPeersFile (c : Config.Config) (fs : gmap string Entry) : bool :=
  bool_decide (is_Some (fs !! Filepath.Join [Config.DataDir c; DefaultPeersFile])).

Definition storeEmpty (st : Store) : bool :=
  match st with
  | InmemStore _ => true
  | BadgerStore _ _ _ kv => bool_decide (kv = ∅)
  end.

(** Modelled from the spec: [Init] is missing from the sources, which
    hold its test only. The configuration is settled, the store opened and the
    node created; the node has a peer-set to start from unless the store is
    empty and there is no file of peers. *)
Definition Init (env : Config.Env) (k : Kdag) (fs : gmap string Entry) (now : string)
  : result (Kdag * gmap string Entry) :=
  let k := validateConfig env k in
  match initStore k fs now with
  | Err e => Err e
  | Ok (k, fs) =>
      let noPeerSet :=
        match Store_of k with
        | Some st => storeEmpty st && negb (hasPeersFile (Config_of k) fs)
        | None => true
        end in
      Ok ({| Config_of := Config_of k; Store_of := Store_of k;
             Node_of := Some (Node.NewNode (Config_of k) (negb noPeerSet)) |}, fs)
  end.

(** The file system that an initialisation leaves, when it succeeds. *)
Definition fs_after (r : result (Kdag * gmap string Entry)) : option (gmap string Entry) :=
  match r with
  | Ok (_, fs) => Some fs
  | Err _ => None
  end.

(** The entries of the data directory whose names contain [badger_db], as
    the test of [initStore] collects them. *)
Definition dbFiles (fs : gmap string Entry) (dataDir : string) : list string :=
  filter (λ name, Strings.Contains name Config.DefaultBadgerFile = true)
         (ReadDir fs dataDir).

(** The setting of the node tests: a process whose [HOME] is
    [/home/kdag], the default configuration moved to the data directory
    [test_data], and a data directory that holds the file of peers. *)
Definition test_env : Config.Env :=
  {| Config.env_HOME := "/home/kdag"; Config.env_user_HomeDir := None;
     Config.env_GOOS := Config.other_os |}.

Definition test_conf : Config.Config :=
  Config.SetDataDir test_env (Config.NewDefaultConfig test_env) "test_data".


Definition test_fs : gmap string Entry :=
  {[ "test_data" := Directory; "test_data/peers.json" := RegularFile [] ]}.

End Kdag.

(** * Properties *)

(** ** Strings *)

Section StringFacts.

Lemma app_nil_l_s (t : string) : "" +:+ t = t.
Proof. reflexivity. Qed.

Lemma app_cons_s (c : ascii) (s t : string) : String c s +:+ t = String c (s +:+ t).
Proof. reflexivity. Qed.

Lemma app_nil_r_s (s : string) : s +:+ "" = s.
Proof. induction s as [| c s IH]; [reflexivity |]. by rewrite app_cons_s, IH. Qed.

Lemma app_assoc_s (s t u : string) : (s +:+ t) +:+ u = s +:+ (t +:+ u).
Proof.
  induction s as [| c s IH]; [reflexivity |].
  by rewrite !app_cons_s, IH.
Qed.

Lemma app_eq_nil_s (s t : string) : s +:+ t = "" → s = "" ∧ t = "".
Proof. destruct s; [by rewrite app_nil_l_s | rewrite app_cons_s; discriminate]. Qed.

Lemma Split_not_nil sep s : Strings.Split sep s ≠ [].
Proof.
  destruct s as [| c s]; cbn; [discriminate |].
  destruct (decide (c = sep)); [discriminate |].
  destruct (Strings.Split sep s); discriminate.
Qed.

(** Splitting at a separator that is written out. *)
Lemma Split_app sep a b :
  Strings.Split sep (a +:+ String sep b) = Strings.Split sep a ++ Strings.Split sep b.
Proof.
  induction a as [| c a IH].
  - rewrite app_nil_l_s. cbn. destruct (decide (sep = sep)); [reflexivity | contradiction].
  - rewrite app_cons_s. cbn. destruct (decide (c = sep)) as [-> | Hc].
    + by rewrite IH.
    + rewrite IH. pose proof (Split_not_nil sep a) as Hne.
      destruct (Strings.Split sep a) as [| h t]; [contradiction | reflexivity].
Qed.

Lemma Split_free sep s : Strings.free_of sep s = true → Strings.Split sep s = [s].
Proof.
  induction s as [| c s IH]; cbn; [reflexivity |].
  destruct (decide (c = sep)); [discriminate |].
  intros Hfree. by rewrite (IH Hfree).
Qed.

(** The pieces of a split hold no separator. *)
Lemma Split_pieces_free sep s :
  Forall (λ e, Strings.free_of sep e = true) (Strings.Split sep s).
Proof.
  induction s as [| c s IH]; cbn.
  - by constructor.
  - destruct (decide (c = sep)) as [-> | Hc].
    + by constructor.
    + pose proof (Split_not_nil sep s) as Hne.
      destruct (Strings.Split sep s) as [| h t]; [contradiction |].
      inversion IH as [| ? ? Hh Ht]; subst. constructor; [| exact Ht].
      cbn. destruct (decide (c = sep)); [contradiction | exact Hh].
Qed.

Lemma Join_cons sep e e' rest :
  Strings.Join sep (e :: e' :: rest) = e +:+ String sep (Strings.Join sep (e' :: rest)).
Proof. reflexivity. Qed.

(** Joining what was split gives the string back. *)
Lemma Join_Split sep s : Strings.Join sep (Strings.Split sep s) = s.
Proof.
  induction s as [| c s IH]; cbn; [reflexivity |].
  pose proof (Split_not_nil sep s) as Hne.
  destruct (decide (c = sep)) as [-> | Hc].
  - destruct (Strings.Split sep s) as [| h t] eqn:E; [contradiction |].
    rewrite Join_cons, IH. reflexivity.
  - destruct (Strings.Split sep s) as [| h t] eqn:E; [contradiction |].
    destruct t as [| h' t].
    + cbn in *. by rewrite IH.
    + rewrite Join_cons in *. rewrite app_cons_s, IH. reflexivity.
Qed.

(** Splitting what was joined from separator-free pieces gives them back. *)
Lemma Split_Join sep l :
  l ≠ [] → Forall (λ e, Strings.free_of sep e = true) l →
  Strings.Split sep (Strings.Join sep l) = l.
Proof.
  induction l as [| e l IH]; [done |].
  intros _ Hall. inversion Hall as [| ? ? He Hl]; subst.
  destruct l as [| e' l].
  - cbn. by apply Split_free.
  - rewrite Join_cons, Split_app, (Split_free _ _ He), IH; [reflexivity | done | exact Hl].
Qed.

Lemma Join_cons_ne sep e rest :
  rest ≠ [] → Strings.Join sep (e :: rest) = e +:+ String sep (Strings.Join sep rest).
Proof. destruct rest; [done | reflexivity]. Qed.

Lemma Join_snoc sep l n :
  l ≠ [] → Strings.Join sep (l ++ [n]) = Strings.Join sep l +:+ String sep n.
Proof.
  induction l as [| e l IH]; [done |]. intros _.
  rewrite <- app_comm_cons, Join_cons_ne by (by destruct l).
  destruct l as [| e' l]; [reflexivity |].
  rewrite IH by done.
  rewrite (Join_cons_ne _ e) by done.
  by rewrite app_assoc_s, app_cons_s.
Qed.

Lemma HasPrefix_nil s : Strings.HasPrefix s "" = true.
Proof. by destruct s. Qed.

Lemma HasPrefix_app s t p :
  s ≠ "" → String.length p = 1%nat →
  Strings.HasPrefix (s +:+ t) p = Strings.HasPrefix s p.
Proof.
  intros Hs Hp. destruct p as [| c [| ? ?]]; try discriminate.
  destruct s as [| d s]; [done |]. rewrite app_cons_s. cbn.
  destruct (decide (c = d)); [| reflexivity]. by rewrite !HasPrefix_nil.
Qed.

End StringFacts.

(** ** Paths *)

Section FilepathFacts.

Import Filepath.

Lemma is_name_spec e :
  is_name e = true ↔ e ≠ "" ∧ e ≠ "." ∧ e ≠ ".." ∧ Strings.free_of Separator e = true.
Proof.
  unfold is_name. rewrite !andb_true_iff, !bool_decide_eq_true. tauto.
Qed.

Lemma clean_stack_nil root : clean_stack root [].
Proof. apply cs_dotdots; [constructor | done]. Qed.

Lemma clean_step_stack root out e :
  Strings.free_of Separator e = true →
  clean_stack root out → clean_stack root (clean_step root out e).
Proof.
  intros Hfree Hout. unfold clean_step.
  destruct (decide (e = "")); [done |].
  destruct (decide (e = ".")); [done |].
  destruct (decide (e = "..")) as [-> | Hdd].
  - destruct out as [| top rest].
    + destruct root; [done |]. apply cs_dotdots; [by repeat constructor | done].
    + destruct (decide (top = "..")) as [-> | Htop].
      * destruct root; [done |].
        inversion Hout as [dd Hall Hroot | e' out' Hname Hrest]; subst.
        -- apply cs_dotdots; [by constructor | done].
        -- apply is_name_spec in Hname. tauto.
      * inversion Hout as [dd Hall Hroot | e' out' Hname Hrest]; subst.
        -- inversion Hall; subst. contradiction.
        -- exact Hrest.
  - apply cs_name; [| exact Hout]. apply is_name_spec. tauto.
Qed.

Lemma fold_clean_stack root elems out :
  Forall (λ e, Strings.free_of Separator e = true) elems →
  clean_stack root out → clean_stack root (fold_left (clean_step root) elems out).
Proof.
  revert out. induction elems as [| e elems IH]; intros out Hall Hout; [done |].
  inversion Hall; subst. cbn. apply IH; [done |]. by apply clean_step_stack.
Qed.

Lemma clean_step_name root out e :
  is_name e = true → clean_step root out e = e :: out.
Proof.
  intros (H1 & H2 & H3 & _)%is_name_spec. unfold clean_step.
  by rewrite !decide_False.
Qed.

(** The elements of a stack are written back unchanged by the scan. *)
Lemma clean_step_top root e out :
  clean_stack root (e :: out) → clean_step root out e = e :: out.
Proof.
  intros Hst. inversion Hst as [dd Hall Hroot | e' out' Hname Hrest]; subst.
  - inversion Hall as [| ? ? He Hdd]; subst. unfold clean_step. cbn.
    destruct root; [by specialize (Hroot eq_refl) |].
    destruct out as [| top rest]; [done |].
    inversion Hdd; subst. reflexivity.
  - by apply clean_step_name.
Qed.

Lemma clean_stack_tail root e out : clean_stack root (e :: out) → clean_stack root out.
Proof.
  intros Hst. inversion Hst as [dd Hall Hroot | e' out' Hname Hrest]; subst; [| done].
  inversion Hall; subst. apply cs_dotdots; [done |].
  intros Hr. by specialize (Hroot Hr).
Qed.

Lemma fold_clean_rev root out :
  clean_stack root out → fold_left (clean_step root) (rev out) [] = out.
Proof.
  induction out as [| e out IH]; intros Hst; [done |].
  cbn. rewrite fold_left_app. cbn.
  rewrite IH by (by eapply clean_stack_tail). by apply clean_step_top.
Qed.

Lemma clean_stack_free root out :
  clean_stack root out → Forall (λ e, Strings.free_of Separator e = true) out.
Proof.
  induction 1 as [dd Hall _ | e out Hname _ IH].
  - eapply Forall_impl; [exact Hall |]. by intros ? ->.
  - constructor; [| done]. apply is_name_spec in Hname. tauto.
Qed.

Lemma clean_stack_nonempty root out :
  clean_stack root out → Forall (λ e, e ≠ "" ∧ e ≠ ".") out.
Proof.
  induction 1 as [dd Hall _ | e out Hname _ IH].
  - eapply Forall_impl; [exact Hall |]. by intros ? ->.
  - constructor; [| done]. apply is_name_spec in Hname. tauto.
Qed.

Lemma clean_stack_not_rooted out e :
  clean_stack false out → e ∈ out → Strings.HasPrefix e "/" = false.
Proof.
  intros Hst Hin.
  pose proof (clean_stack_free _ _ Hst) as Hfree.
  pose proof (clean_stack_nonempty _ _ Hst) as Hne.
  rewrite Forall_forall in Hfree, Hne.
  specialize (Hfree _ Hin). destruct (Hne _ Hin) as [Hne1 _].
  destruct e as [| c e]; [done |]. cbn in *.
  destruct (decide (c = Separator)) as [-> | Hc]; [done |].
  destruct (decide ("/"%char = c)) as [<- | _]; [done | reflexivity].
Qed.

Lemma clean_list_nil root : clean_list root [].
Proof. apply clean_stack_nil. Qed.

Lemma clean_list_snoc root l n :
  is_name n = true → clean_list root l → clean_list root (l ++ [n]).
Proof. intros Hn Hl. unfold clean_list. rewrite rev_unit. by apply cs_name. Qed.

Lemma elem_of_rev_s (x : string) (l : list string) : x ∈ rev l ↔ x ∈ l.
Proof. rewrite !list_elem_of_In. symmetry. apply in_rev. Qed.

Lemma clean_list_free root l :
  clean_list root l → Forall (λ e, Strings.free_of Separator e = true) l.
Proof.
  intros Hl%clean_stack_free. rewrite Forall_forall in *.
  intros e He. apply Hl. by apply elem_of_rev_s.
Qed.

Lemma clean_list_head root e l :
  clean_list root (e :: l) →
  e ≠ "" ∧ e ≠ "." ∧ (root = false → Strings.HasPrefix e "/" = false).
Proof.
  intros Hl.
  assert (Hin : e ∈ rev (e :: l)).
  { apply elem_of_rev_s. by left. }
  pose proof (clean_stack_nonempty _ _ Hl) as Hne. rewrite Forall_forall in Hne.
  destruct (Hne _ Hin) as [H1 H2]. repeat split; [done | done |].
  intros ->. by eapply clean_stack_not_rooted.
Qed.

Lemma clean_elems_clean root l : clean_list root l → clean_elems root l = l.
Proof.
  intros Hl. unfold clean_elems. rewrite <- (rev_involutive l) at 1.
  rewrite (fold_clean_rev _ _ Hl). apply rev_involutive.
Qed.

Lemma Join_head sep e l : e ≠ "" → Strings.Join sep (e :: l) ≠ "".
Proof.
  intros He. destruct l as [| e' l]; [done |].
  rewrite Join_cons. intros [? _]%app_eq_nil_s. done.
Qed.

Lemma Join_head_prefix sep e l p :
  e ≠ "" → String.length p = 1%nat →
  Strings.HasPrefix (Strings.Join sep (e :: l)) p = Strings.HasPrefix e p.
Proof.
  intros He Hp. destruct l as [| e' l]; [done |].
  rewrite Join_cons. by apply HasPrefix_app.
Qed.

Lemma render_not_empty root l : clean_list root l → render root l ≠ "".
Proof.
  intros Hl. unfold render. destruct root; [done |].
  destruct l as [| e l]; [done |].
  apply Join_head. by destruct (clean_list_head _ _ _ Hl).
Qed.

Lemma rooted_render root l : clean_list root l → rooted (render root l) = root.
Proof.
  intros Hl. unfold rooted, render. destruct root.
  { rewrite app_cons_s, app_nil_l_s. cbn. apply HasPrefix_nil. }
  destruct l as [| e l]; [reflexivity |].
  destruct (clean_list_head _ _ _ Hl) as (He & _ & Hpre).
  rewrite Join_head_prefix by done. by apply Hpre.
Qed.

Lemma render_dot root l : clean_list root l → render root l = "." → root = false ∧ l = [].
Proof.
  intros Hl. unfold render. destruct root; [done |].
  destruct l as [| e l]; [done |].
  destruct (clean_list_head _ _ _ Hl) as (He & Hdot & _).
  destruct l as [| e' l]; [done |].
  rewrite Join_cons. destruct e as [| c e]; [done |].
  rewrite app_cons_s. intros [= _ [_ ?]%app_eq_nil_s]. done.
Qed.

Lemma render_slash root l : clean_list root l → render root l = "/" → root = true ∧ l = [].
Proof.
  intros Hl Hr.
  pose proof (rooted_render _ _ Hl) as Hroot. rewrite Hr in Hroot. cbn in Hroot.
  subst root. split; [done |]. unfold render in Hr.
  destruct l as [| e l]; [done |].
  destruct (clean_list_head _ _ _ Hl) as (He & _ & _).
  exfalso. revert Hr. rewrite app_cons_s, app_nil_l_s. intros [= Hj].
  by eapply Join_head.
Qed.

(** Writing one more name after a clean path. *)
Lemma render_snoc root l n :
  clean_list root l → render root (l ++ [n]) = child (render root l) n.
Proof.
  intros Hl. unfold child.
  destruct (decide (render root l = ".")) as [Hd | Hd].
  { destruct (render_dot _ _ Hl Hd) as [-> ->]. reflexivity. }
  destruct (decide (render root l = "/")) as [Hs | Hs].
  { destruct (render_slash _ _ Hl Hs) as [-> ->]. reflexivity. }
  assert (Hne : l ≠ []).
  { intros ->. destruct root; [by apply Hs | by apply Hd]. }
  unfold render. destruct root.
  - by rewrite Join_snoc, app_assoc_s.
  - destruct l as [| e l]; [done |].
    rewrite Join_snoc by done.
    by destruct ((e :: l) ++ [n]) eqn:E.
Qed.

Lemma Split_render root l :
  clean_list root l →
  clean_elems root (Strings.Split Separator (render root l)) = l.
Proof.
  intros Hl. pose proof (clean_list_free _ _ Hl) as Hfree.
  unfold render. destruct root.
  - change ("/" +:+ Strings.Join Separator l)
      with ("" +:+ String Separator (Strings.Join Separator l)).
    rewrite Split_app. destruct l as [| e l]; [reflexivity |].
    rewrite Split_Join by done.
    change (clean_elems true (Strings.Split Separator "" ++ e :: l))
      with (clean_elems true (e :: l)).
    by apply clean_elems_clean.
  - destruct l as [| e l]; [reflexivity |].
    rewrite Split_Join by done. by apply clean_elems_clean.
Qed.

(** A path written by [Clean] is left as it is by [Clean]. *)
Lemma Clean_render root l : clean_list root l → Clean (render root l) = render root l.
Proof.
  intros Hl. unfold Clean.
  rewrite decide_False by (by apply render_not_empty).
  by rewrite rooted_render, Split_render.
Qed.

Lemma Clean_shape d : ∃ root l, clean_list root l ∧ Clean d = render root l.
Proof.
  unfold Clean. destruct (decide (d = "")) as [-> | Hd].
  - exists false, []. split; [apply clean_list_nil | reflexivity].
  - exists (rooted d), (clean_elems (rooted d) (Strings.Split Separator d)).
    split; [| reflexivity].
    unfold clean_list, clean_elems. rewrite rev_involutive.
    apply fold_clean_stack; [apply Split_pieces_free | apply clean_stack_nil].
Qed.

Lemma Clean_idem d : Clean (Clean d) = Clean d.
Proof.
  destruct (Clean_shape d) as (root & l & Hl & ->). by apply Clean_render.
Qed.

Lemma clean_elems_snoc root elems n :
  is_name n = true →
  clean_elems root (elems ++ [n]) = clean_elems root elems ++ [n].
Proof.
  intros Hn. unfold clean_elems. rewrite fold_left_app. cbn.
  by rewrite clean_step_name.
Qed.

Lemma Clean_name n : is_name n = true → Clean n = n.
Proof.
  intros Hn. pose proof Hn as (Hne & _ & _ & Hfree)%is_name_spec.
  unfold Clean. rewrite decide_False by done.
  rewrite (Split_free _ _ Hfree).
  change [n] with ([] ++ [n]). rewrite clean_elems_snoc by done. cbn.
  assert (Hr : rooted n = false).
  { destruct n as [| c n]; [done |]. cbn in *.
    destruct (decide (c = Separator)) as [-> | Hc]; [done |].
    destruct (decide ("/"%char = c)) as [<- | _]; done. }
  by rewrite Hr.
Qed.

(** [Clean] of a path that ends in one more name. *)
Lemma Clean_child d n :
  d ≠ "" → is_name n = true →
  Clean (d +:+ String Separator n) = child (Clean d) n.
Proof.
  intros Hd Hn. pose proof Hn as (_ & _ & _ & Hfree)%is_name_spec.
  unfold Clean at 1.
  rewrite decide_False by (intros [? _]%app_eq_nil_s; done).
  unfold rooted. rewrite HasPrefix_app by done. fold (rooted d).
  rewrite Split_app, (Split_free _ _ Hfree), clean_elems_snoc by done.
  rewrite render_snoc.
  - unfold Clean. by rewrite decide_False.
  - unfold clean_list, clean_elems. rewrite rev_involutive.
    apply fold_clean_stack; [apply Split_pieces_free | apply clean_stack_nil].
Qed.

(** [Join] of a directory and a name. *)
Lemma Join_child d n : is_name n = true → Join [d; n] = child (Clean d) n.
Proof.
  intros Hn. pose proof Hn as (Hne & _)%is_name_spec. cbn [Join].
  destruct (decide (d = "")) as [-> | Hd].
  - rewrite decide_False by done. cbn [Strings.Join]. by rewrite Clean_name.
  - change (Strings.Join Separator [d; n]) with (d +:+ String Separator n).
    by apply Clean_child.
Qed.

Lemma clean_elems_sep root elems :
  clean_elems root (elems ++ [""]) = clean_elems root elems.
Proof. unfold clean_elems. by rewrite fold_left_app. Qed.

(** A trailing separator does not change the cleaned path. *)
Lemma Clean_trailing d : d ≠ "" → Clean (d +:+ "/") = Clean d.
Proof.
  intros Hd. unfold Clean.
  rewrite decide_False by (intros [? _]%app_eq_nil_s; done).
  rewrite decide_False by done.
  unfold rooted. rewrite HasPrefix_app by done.
  change (d +:+ "/") with (d +:+ String Separator "").
  by rewrite Split_app, clean_elems_sep.
Qed.

Lemma dir_part_child a n :
  Strings.free_of Separator n = true →
  dir_part (a +:+ String Separator n) = a +:+ "/".
Proof.
  intros Hfree. unfold dir_part.
  rewrite Split_app, (Split_free _ _ Hfree), rev_unit.
  pose proof (Split_not_nil Separator a) as Hne.
  destruct (rev (Strings.Split Separator a)) as [| b bs] eqn:E.
  { apply (f_equal (@rev string)) in E. rewrite rev_involutive in E. done. }
  rewrite <- E. change (rev ("" :: rev (Strings.Split Separator a)))
    with (rev (rev (Strings.Split Separator a)) ++ [""]).
  rewrite rev_involutive, Join_snoc, Join_Split by done. reflexivity.
Qed.

Lemma dir_part_name n : Strings.free_of Separator n = true → dir_part n = "".
Proof. intros Hfree. unfold dir_part. by rewrite (Split_free _ _ Hfree). Qed.

Lemma Base_child_raw a n :
  n ≠ "" → Strings.free_of Separator n = true →
  Base (a +:+ String Separator n) = n.
Proof.
  intros Hn Hfree. unfold Base.
  rewrite decide_False by (intros [_ ?]%app_eq_nil_s; done).
  rewrite Split_app, (Split_free _ _ Hfree), rev_unit.
  by rewrite filter_cons_True.
Qed.

Lemma Base_name n : n ≠ "" → Strings.free_of Separator n = true → Base n = n.
Proof.
  intros Hn Hfree. unfold Base. rewrite decide_False by done.
  rewrite (Split_free _ _ Hfree). change (rev [n]) with [n].
  by rewrite filter_cons_True.
Qed.

(** The entry [n] of a clean directory: its directory and its name. *)
Lemma Dir_child root l n :
  clean_list root l → is_name n = true →
  Dir (child (render root l) n) = render root l.
Proof.
  intros Hl (_ & _ & _ & Hfree)%is_name_spec. unfold child, Dir.
  destruct (decide (render root l = ".")) as [-> | Hd].
  { by rewrite dir_part_name. }
  destruct (decide (render root l = "/")) as [-> | Hs].
  { change ("/" +:+ n) with ("" +:+ String Separator n).
    by rewrite dir_part_child. }
  rewrite dir_part_child by done.
  rewrite Clean_trailing by (by apply render_not_empty).
  by apply Clean_render.
Qed.

Lemma Base_child dir n : is_name n = true → Base (child dir n) = n.
Proof.
  intros (Hne & _ & _ & Hfree)%is_name_spec. unfold child.
  destruct (decide (dir = ".")); [by apply Base_name |].
  destruct (decide (dir = "/")).
  - change ("/" +:+ n) with ("" +:+ String Separator n). by apply Base_child_raw.
  - by apply Base_child_raw.
Qed.

(** The path that [Join] makes of a directory and a name is the entry of
    that name in the directory. *)
Lemma Join_entry d n :
  is_name n = true →
  Join [d; n] = child (Clean d) n ∧ Dir (Join [d; n]) = Clean d ∧ Base (Join [d; n]) = n.
Proof.
  intros Hn. rewrite (Join_child _ _ Hn).
  split; [reflexivity |]. split; [| by apply Base_child].
  destruct (Clean_shape d) as (root & l & Hl & ->). by apply Dir_child.
Qed.

(** For a directory already in clean form, other than [.] and [/], the
    path is the text of the directory, a separator and the name. *)
Lemma Join_literal d n :
  is_name n = true → Clean d = d → d ≠ "." → d ≠ "/" →
  Join [d; n] = d +:+ String Separator n.
Proof.
  intros Hn Hclean Hd Hs. rewrite (Join_child _ _ Hn), Hclean.
  unfold child. by rewrite !decide_False.
Qed.

End FilepathFacts.

Example Clean_examples :
  Filepath.Clean "a//b/./c/.." = "a/b" ∧
  Filepath.Clean "/../a/" = "/a" ∧
  Filepath.Clean "../../a/../.." = "../../.." ∧
  Filepath.Clean "" = "." ∧
  Filepath.Clean "///" = "/".
Proof. repeat split. Qed.

Example Join_examples :
  Filepath.Join [""; "priv_key"] = "priv_key" ∧
  Filepath.Join ["test_data/"; "badger_db"] = "test_data/badger_db" ∧
  Filepath.Join ["/"; "badger_db"] = "/badger_db" ∧
  Filepath.Join ["a"; ""; "b"] = "a/b" ∧
  Filepath.Join [""; ""] = "".
Proof. repeat split. Qed.

Example Dir_Base_examples :
  Filepath.Dir "/a/b" = "/a" ∧ Filepath.Dir "b" = "." ∧ Filepath.Dir "/b" = "/" ∧
  Filepath.Dir "a/b/" = "a/b" ∧
  Filepath.Base "/a/b/" = "b" ∧ Filepath.Base "//" = "/" ∧ Filepath.Base "" = ".".
Proof. repeat split. Qed.

(** ** The configuration *)

Section ConfigFacts.

Import Config.

Lemma set_DataDir_DataDir v c : DataDir (set_DataDir v c) = v.
Proof. reflexivity. Qed.

Lemma set_DatabaseDir_DatabaseDir v c : DatabaseDir (set_DatabaseDir v c) = v.
Proof. reflexivity. Qed.

(** The two branches of [SetDataDir]. *)
Lemma SetDataDir_default env c d :
  DatabaseDir c = DefaultDatabaseDir env →
  SetDataDir env c d = set_DatabaseDir (Filepath.Join [d; DefaultBadgerFile]) (set_DataDir d c).
Proof.
  intros Hdef. unfold SetDataDir. cbn [DatabaseDir set_DataDir].
  destruct (decide _) as [_ | Hne]; [reflexivity | contradiction].
Qed.

Lemma SetDataDir_explicit env c d :
  DatabaseDir c ≠ DefaultDatabaseDir env →
  SetDataDir env c d = set_DataDir d c.
Proof.
  intros Hne. unfold SetDataDir. cbn [DatabaseDir set_DataDir].
  destruct (decide _) as [Heq | _]; [contradiction | reflexivity].
Qed.

End ConfigFacts.

(** C9. [SetDataDir d] writes [DataDir], and [DatabaseDir] only when it
    holds the default value: a [DatabaseDir] that differs from the default
    is left as it is, and every other field of the configuration is the
    same after the call, whichever branch is taken. *)
Theorem SetDataDir_frame (env : Config.Env) (c : Config.Config) (d : string) :
  let c' := Config.SetDataDir env c d in
  Config.DataDir c' = d ∧
  (Config.DatabaseDir c ≠ Config.DefaultDatabaseDir env →
   Config.DatabaseDir c' = Config.DatabaseDir c) ∧
  (Config.DatabaseDir c' = Config.DatabaseDir c ∨
   Config.DatabaseDir c' = Filepath.Join [d; Config.DefaultBadgerFile]) ∧
  Config.LogLevel_of c' = Config.LogLevel_of c ∧
  Config.BindAddr c' = Config.BindAddr c ∧
  Config.AdvertiseAddr c' = Config.AdvertiseAddr c ∧
  Config.NoService c' = Config.NoService c ∧
  Config.ServiceAddr c' = Config.ServiceAddr c ∧
  Config.HeartbeatTimeout c' = Config.HeartbeatTimeout c ∧
  Config.SlowHeartbeatTimeout c' = Config.SlowHeartbeatTimeout c ∧
  Config.MaxPool c' = Config.MaxPool c ∧
  Config.TCPTimeout c' = Config.TCPTimeout c ∧
  Config.JoinTimeout c' = Config.JoinTimeout c ∧
  Config.SyncLimit c' = Config.SyncLimit c ∧
  Config.EnableFastSync c' = Config.EnableFastSync c ∧
  Config.Store c' = Config.Store c ∧
  Config.CacheSize c' = Config.CacheSize c ∧
  Config.Bootstrap c' = Config.Bootstrap c ∧
  Config.MaintenanceMode c' = Config.MaintenanceMode c ∧
  Config.SuspendLimit c' = Config.SuspendLimit c ∧
  Config.Moniker c' = Config.Moniker c ∧
  Config.WebRTC c' = Config.WebRTC c ∧
  Config.SignalAddr c' = Config.SignalAddr c ∧
  Config.SignalRealm c' = Config.SignalRealm c ∧
  Config.SignalSkipVerify c' = Config.SignalSkipVerify c ∧
  Config.ICEServers c' = Config.ICEServers c ∧
  Config.Proxy_of c' = Config.Proxy_of c ∧
  Config.Key c' = Config.Key c ∧
  Config.logger c' = Config.logger c.
Proof.
  intros c'. subst c'.
  destruct (decide (Config.DatabaseDir c = Config.DefaultDatabaseDir env)) as [Hdef | Hne].
  - rewrite (SetDataDir_default _ _ _ Hdef). cbn.
    repeat split; try reflexivity.
    + intros Hne. contradiction.
    + right. reflexivity.
  - rewrite (SetDataDir_explicit _ _ _ Hne). cbn.
    repeat split; try reflexivity. left. reflexivity.
Qed.

(** The call on a configuration whose database directory was set by the
    user to [/var/db], in a process whose [HOME] is [/home/kdag]. *)
Lemma SetDataDir_frame_witness :
  let env := {| Config.env_HOME := "/home/kdag"; Config.env_user_HomeDir := None;
                Config.env_GOOS := Config.other_os |} in
  let c := Config.set_DatabaseDir "/var/db" (Config.NewDefaultConfig env) in
  Config.DatabaseDir c ≠ Config.DefaultDatabaseDir env ∧
  Config.DatabaseDir (Config.SetDataDir env c "test_data") = "/var/db".
Proof.
  intros env c.
  assert (Hne : Config.DatabaseDir c ≠ Config.DefaultDatabaseDir env)
    by (vm_compute; discriminate).
  split; [exact Hne |].
  exact (proj1 (proj2 (SetDataDir_frame env c "test_data")) Hne).
Defined.

(** C7. The key file is the entry [priv_key] of the data directory, for
    every configuration; after [SetDataDir d] on a configuration whose
    [DatabaseDir] holds the default value, the database directory is the
    entry [badger_db] of [d]. For a directory written in clean form (other
    than [.] and [/]) these paths are literally [<datadir>/priv_key] and
    [<d>/badger_db]; for the empty directory they are the bare names. *)
Theorem persisted_layout (env : Config.Env) (c : Config.Config) (d : string) :
  (Config.Keyfile c = Filepath.child (Filepath.Clean (Config.DataDir c)) "priv_key" ∧
   Filepath.Dir (Config.Keyfile c) = Filepath.Clean (Config.DataDir c) ∧
   Filepath.Base (Config.Keyfile c) = "priv_key" ∧
   (Filepath.Clean (Config.DataDir c) = Config.DataDir c →
    Config.DataDir c ≠ "." → Config.DataDir c ≠ "/" →
    Config.Keyfile c = Config.DataDir c +:+ "/priv_key") ∧
   (Config.DataDir c = "" → Config.Keyfile c = "priv_key")) ∧
  (Config.DatabaseDir c = Config.DefaultDatabaseDir env →
   let c' := Config.SetDataDir env c d in
   Config.DatabaseDir c' = Filepath.child (Filepath.Clean d) "badger_db" ∧
   Filepath.Dir (Config.DatabaseDir c') = Filepath.Clean d ∧
   Filepath.Base (Config.DatabaseDir c') = "badger_db" ∧
   (Filepath.Clean d = d → d ≠ "." → d ≠ "/" →
    Config.DatabaseDir c' = d +:+ "/badger_db") ∧
   (d = "" → Config.DatabaseDir c' = "badger_db")).
Proof.
  split.
  - unfold Config.Keyfile, Config.DefaultKeyfile.
    destruct (Join_entry (Config.DataDir c) "priv_key" eq_refl) as (H1 & H2 & H3).
    repeat split; [exact H1 | exact H2 | exact H3 | |].
    + intros Hclean Hd Hs. by apply (Join_literal _ "priv_key").
    + by intros ->.
  - intros Hdef c'. subst c'. rewrite (SetDataDir_default _ _ _ Hdef).
    cbn [Config.DatabaseDir Config.set_DatabaseDir]. unfold Config.DefaultBadgerFile.
    destruct (Join_entry d "badger_db" eq_refl) as (H1 & H2 & H3).
    repeat split; [exact H1 | exact H2 | exact H3 | |].
    + intros Hclean Hd Hs. by apply (Join_literal _ "badger_db").
    + by intros ->.
Qed.

(** The default configuration of a process whose [HOME] is [/home/kdag],
    moved to the data directory [test_data] as the node tests do. *)
Lemma persisted_layout_witness :
  let env := {| Config.env_HOME := "/home/kdag"; Config.env_user_HomeDir := None;
                Config.env_GOOS := Config.other_os |} in
  let c := Config.NewDefaultConfig env in
  Config.DatabaseDir c = Config.DefaultDatabaseDir env ∧
  Config.Keyfile c = "/home/kdag/.kdag/priv_key" ∧
  Config.DatabaseDir (Config.SetDataDir env c "test_data") = "test_data/badger_db".
Proof.
  intros env c.
  destruct (persisted_layout env c "test_data") as [(_ & _ & _ & Hkey & _) Hdb].
  split; [reflexivity |]. split.
  - apply Hkey; [reflexivity | discriminate | discriminate].
  - destruct (Hdb eq_refl) as (_ & _ & _ & Hlit & _).
    apply Hlit; [reflexivity | discriminate | discriminate].
Defined.

(** C10. [LogLevel] has no error result; the six names give their levels
    and every other string gives the debug level. *)
Theorem LogLevel_table (l : string) :
  Config.LogLevel "debug" = Logrus.DebugLevel ∧
  Config.LogLevel "info" = Logrus.InfoLevel ∧
  Config.LogLevel "warn" = Logrus.WarnLevel ∧
  Config.LogLevel "error" = Logrus.ErrorLevel ∧
  Config.LogLevel "fatal" = Logrus.FatalLevel ∧
  Config.LogLevel "panic" = Logrus.PanicLevel ∧
  (l ∉ ["debug"; "info"; "warn"; "error"; "fatal"; "panic"] →
   Config.LogLevel l = Logrus.DebugLevel).
Proof.
  repeat split; try reflexivity.
  intros Hl. unfold Config.LogLevel.
  repeat (destruct (decide _) as [-> | _]; [exfalso; apply Hl; repeat constructor |]).
  reflexivity.
Qed.

(** The level named [trace] exists in Logrus but is not one of the six
    names: it is read as the debug level. *)
Lemma LogLevel_table_witness :
  ("trace" ∉ ["debug"; "info"; "warn"; "error"; "fatal"; "panic"]) ∧
  Config.LogLevel "trace" = Logrus.DebugLevel.
Proof.
  assert (H : "trace" ∉ ["debug"; "info"; "warn"; "error"; "fatal"; "panic"]).
  { rewrite !not_elem_of_cons. repeat split; try discriminate. apply not_elem_of_nil. }
  split; [exact H |].
  exact (proj2 (proj2 (proj2 (proj2 (proj2 (proj2 (LogLevel_table "trace")))))) H).
Defined.

(** ** The node and its initialisation *)

Section NodeFacts.

Import State Node.


(** A suspended node stays suspended unless it is resumed or shut down. *)
Lemma step_suspended_stays n i :
  state n = Suspended → i ≠ Resume → i ≠ ShutdownSignal →
  state (step n i).1 = Suspended.
Proof.
  intros Hst Hr Hs. unfold step. rewrite Hst.
  destruct i; cbn; done.
Qed.





End NodeFacts.

Section KdagFacts.

Import Kdag.

Lemma SetDataDir_MaintenanceMode env c d :
  Config.MaintenanceMode (Config.SetDataDir env c d) = Config.MaintenanceMode c.
Proof. unfold Config.SetDataDir. by destruct (decide _). Qed.

Lemma validateConfig_MaintenanceMode env k :
  Config.MaintenanceMode (Config_of (validateConfig env k)) =
  Config.MaintenanceMode (Config_of k).
Proof.
  unfold validateConfig. cbn [Config_of].
  set (c1 := Config.SetDataDir env (Config_of k) (Config.DataDir (Config_of k))).
  rewrite <- (SetDataDir_MaintenanceMode env (Config_of k) (Config.DataDir (Config_of k))).
  fold c1. destruct (Config.MaintenanceMode c1) eqn:Hm.
  - change (Config.Bootstrap (Config.set_Bootstrap true c1)) with true.
    cbv iota. exact Hm.
  - destruct (Config.Bootstrap c1); exact Hm.
Qed.

Lemma validateConfig_forces env k :
  let c := Config_of (validateConfig env k) in
  (Config.MaintenanceMode c = true → Config.Bootstrap c = true) ∧
  (Config.Bootstrap c = true → Config.Store c = true).
Proof.
  unfold validateConfig. cbn [Config_of].
  set (c1 := Config.SetDataDir env (Config_of k) (Config.DataDir (Config_of k))).
  destruct (Config.MaintenanceMode c1) eqn:Hm.
  - change (Config.Bootstrap (Config.set_Bootstrap true c1)) with true.
    cbv iota. split; reflexivity.
  - destruct (Config.Bootstrap c1) eqn:Hb.
    + split; [intros _; exact Hb | reflexivity].
    + split; intros Hc; [rewrite Hm in Hc | rewrite Hb in Hc]; discriminate.
Qed.


(** With bootstrap, an existing database is opened where it is. *)
Lemma initStore_bootstrap k fs now kv :
  Config.Store (Config_of k) = true → Config.Bootstrap (Config_of k) = true →
  fs !! Filepath.Clean (Config.DatabaseDir (Config_of k)) = Some (Database kv) →
  initStore k fs now =
    Ok ({| Config_of := Config_of k;
           Store_of := Some (BadgerStore (Config.CacheSize (Config_of k))
                               (Config.DatabaseDir (Config_of k))
                               (Config.MaintenanceMode (Config_of k)) kv);
           Node_of := Node_of k |}, fs).
Proof.
  intros Hstore Hboot Hdb. unfold initStore, NewBadgerStore.
  rewrite Hstore, Hboot. cbn. by rewrite Hdb.
Qed.



End KdagFacts.

(** C5. Settling the configuration makes maintenance mode imply bootstrap
    and bootstrap imply the persistent store; a node initialised in
    maintenance mode over an existing database opens that database, and the
    file system is left as it was: nothing is renamed. *)
Theorem maintenance_implies_bootstrap_implies_store
    (env : Config.Env) (k : Kdag.Kdag) (fs : gmap string Kdag.Entry) (now : string)
    (kv : gmap string (list byte)) :
  let c := Kdag.Config_of (Kdag.validateConfig env k) in
  (Config.MaintenanceMode c = true → Config.Bootstrap c = true) ∧
  (Config.Bootstrap c = true → Config.Store c = true) ∧
  (Config.MaintenanceMode (Kdag.Config_of k) = true →
   fs !! Filepath.Clean (Config.DatabaseDir c) = Some (Kdag.Database kv) →
   ∃ k', Kdag.Init env k fs now = Ok (k', fs) ∧
         Config.Bootstrap (Kdag.Config_of k') = true ∧
         Config.Store (Kdag.Config_of k') = true ∧
         Kdag.Store_of k' =
           Some (Kdag.BadgerStore (Config.CacheSize c) (Config.DatabaseDir c) true kv)).
Proof.
  intros c. destruct (validateConfig_forces env k) as [Hmb Hbs]. fold c in Hmb, Hbs.
  split; [exact Hmb |]. split; [exact Hbs |].
  intros Hm Hdb.
  assert (Hm' : Config.MaintenanceMode c = true).
  { subst c. by rewrite validateConfig_MaintenanceMode. }
  pose proof (Hmb Hm') as Hboot. pose proof (Hbs Hboot) as Hstore.
  unfold Kdag.Init. subst c. set (k1 := Kdag.validateConfig env k) in *.
  rewrite (initStore_bootstrap k1 fs now kv Hstore Hboot Hdb).
  eexists. split; [reflexivity |].
  cbn [Kdag.Config_of Kdag.Store_of].
  split; [exact Hboot |]. split; [exact Hstore |]. by rewrite Hm'.
Qed.

(** A node in maintenance mode over the database that an earlier run left
    in the data directory of the tests. *)
Lemma maintenance_implies_bootstrap_implies_store_witness :
  let k := Kdag.NewKdag (Config.set_MaintenanceMode true Kdag.test_conf) in
  let kv : gmap string (list byte) := {[ "lastRound" := [x01] ]} in
  let fs := <["test_data/badger_db" := Kdag.Database kv]> Kdag.test_fs in
  Config.Bootstrap (Kdag.Config_of k) = false ∧
  Config.Store (Kdag.Config_of k) = false ∧
  ∃ k', Kdag.Init Kdag.test_env k fs "20201030" = Ok (k', fs) ∧
        Config.Bootstrap (Kdag.Config_of k') = true ∧
        Config.Store (Kdag.Config_of k') = true.
Proof.
  intros k kv fs. split; [reflexivity |]. split; [reflexivity |].
  destruct (maintenance_implies_bootstrap_implies_store
              Kdag.test_env k fs "20201030" kv) as (_ & _ & Hinit).
  destruct (Hinit eq_refl eq_refl) as (k' & H1 & H2 & H3 & _).
  exists k'. repeat split; assumption.
Defined.



(** ** The store of a node *)

Section StoreFacts.

Import Filepath Kdag.

Lemma length_app_s (a b : string) :
  String.length (a +:+ b) = (String.length a + String.length b)%nat.
Proof.
  induction a as [| c a IH]; [reflexivity |].
  rewrite app_cons_s. cbn. by rewrite IH.
Qed.

Lemma app_ne_self (s t : string) (c : ascii) : s +:+ String c t ≠ s.
Proof.
  intros E. apply (f_equal String.length) in E.
  rewrite length_app_s in E. cbn in E. lia.
Qed.

Lemma HasPrefix_app_self a b : Strings.HasPrefix (a +:+ b) a = true.
Proof.
  induction a as [| c a IH]; [apply HasPrefix_nil |].
  rewrite app_cons_s. cbn. by rewrite decide_True.
Qed.

Lemma Contains_prefix a b : Strings.Contains (a +:+ b) a = true.
Proof.
  destruct a as [| c a].
  - rewrite app_nil_l_s. destruct b; reflexivity.
  - rewrite app_cons_s. cbn -[String.app]. rewrite decide_True by done.
    by rewrite HasPrefix_app_self.
Qed.

Lemma free_of_app c a b :
  Strings.free_of c (a +:+ b) = Strings.free_of c a && Strings.free_of c b.
Proof.
  induction a as [| d a IH]; [reflexivity |].
  rewrite app_cons_s. cbn. by destruct (decide (d = c)).
Qed.

(** A name that goes on after [badger_db] is a name too. *)
Lemma is_name_suffix n suffix :
  is_name n = true → (2 < String.length n)%nat →
  Strings.free_of Separator suffix = true → is_name (n +:+ suffix) = true.
Proof.
  intros (Hne & _ & _ & Hfree)%is_name_spec Hlen Hsuf. apply is_name_spec.
  assert (Hl : (2 < String.length (n +:+ suffix))%nat) by (rewrite length_app_s; lia).
  repeat split.
  - intros E. rewrite E in Hl. cbn in Hl. lia.
  - intros E. rewrite E in Hl. cbn in Hl. lia.
  - intros E. rewrite E in Hl. cbn in Hl. lia.
  - by rewrite free_of_app, Hfree, Hsuf.
Qed.

Lemma child_app dir n suffix : child dir n +:+ suffix = child dir (n +:+ suffix).
Proof.
  unfold child. destruct (decide (dir = ".")); [reflexivity |].
  destruct (decide (dir = "/")).
  - by rewrite app_assoc_s.
  - by rewrite app_assoc_s, app_cons_s.
Qed.

Lemma child_ne dir n : n ≠ "." → n ≠ "" → child dir n ≠ dir.
Proof.
  intros Hn Hne. unfold child.
  destruct (decide (dir = ".")) as [-> | Hd]; [done |].
  destruct (decide (dir = "/")) as [-> | Hs].
  - intros E. apply (f_equal String.length) in E. rewrite length_app_s in E.
    destruct n; [done | cbn in E; lia].
  - intros E. apply (f_equal String.length) in E. rewrite length_app_s in E.
    cbn in E. lia.
Qed.

Lemma child_inj dir n m : child dir n = child dir m → n = m.
Proof.
  unfold child. destruct (decide (dir = ".")); [done |].
  destruct (decide (dir = "/")).
  - by intros ?%(inj (String.app "/")).
  - by intros [= ?]%(inj (String.app dir)).
Qed.

(** The entry of a clean directory is a clean path. *)
Lemma Clean_child_clean root l n :
  clean_list root l → is_name n = true →
  Clean (child (render root l) n) = child (render root l) n.
Proof.
  intros Hl Hn. rewrite <- render_snoc by done.
  apply Clean_render. by apply clean_list_snoc.
Qed.

(** The names that [ReadDir] gives for a set of paths with one more
    entry of the directory. *)
Lemma ReadDir_insert_entry (fs fs' : gmap string Entry) dirname p :
  p ∉ dom fs → dom fs' = {[p]} ∪ dom fs →
  Dir p = Clean dirname → p ≠ Clean dirname →
  ReadDir fs' dirname ≡ₚ Base p :: ReadDir fs dirname.
Proof.
  intros Hfresh Hdom Hdir Hne. unfold ReadDir.
  rewrite !merge_sort_Permutation, Hdom.
  rewrite elements_union_singleton by done.
  by rewrite filter_cons_True.
Qed.

Lemma ReadDir_elem (fs : gmap string Entry) dirname p :
  p ∈ dom fs → Dir p = Clean dirname → p ≠ Clean dirname →
  Base p ∈ ReadDir fs dirname.
Proof.
  intros Hin Hdir Hne. unfold ReadDir. rewrite merge_sort_Permutation.
  apply list_elem_of_fmap. exists p. split; [done |].
  apply list_elem_of_filter. split; [done |]. by apply elem_of_elements.
Qed.

End StoreFacts.

Section BackupFacts.

Import Filepath Kdag.

(** The paths of the database and of its backup in the data directory. *)
Lemma backup_paths dataDir dbPath now :
  dbPath = Filepath.Join [dataDir; Config.DefaultBadgerFile] →
  Strings.free_of Separator now = true →
  Clean dbPath = dbPath ∧
  Clean (backupFileName dbPath now) = backupFileName dbPath now ∧
  backupFileName dbPath now ≠ dbPath ∧
  Dir (backupFileName dbPath now) = Clean dataDir ∧
  Base (backupFileName dbPath now) = "badger_db_" +:+ now ∧
  backupFileName dbPath now ≠ Clean dataDir.
Proof.
  intros Hpath Hnow.
  destruct (Clean_shape dataDir) as (root & l & Hl & Hcd).
  unfold Config.DefaultBadgerFile in Hpath.
  rewrite (Join_child dataDir "badger_db" eq_refl), Hcd in Hpath.
  set (name' := "badger_db_" +:+ now).
  assert (Hname' : is_name name' = true).
  { apply (is_name_suffix "badger_db" ("_" +:+ now)); [reflexivity | cbn; lia |].
    by rewrite free_of_app. }
  assert (Hbackup : backupFileName dbPath now = child (render root l) name').
  { unfold backupFileName. rewrite Hpath. apply (child_app _ "badger_db"). }
  split. { rewrite Hpath. by apply Clean_child_clean. }
  split. { rewrite Hbackup. by apply Clean_child_clean. }
  split.
  { rewrite Hbackup, Hpath. intros E%child_inj.
    by apply (app_ne_self "badger_db" now "_") in E. }
  split. { rewrite Hbackup, Hcd. by apply Dir_child. }
  split. { rewrite Hbackup. by apply Base_child. }
  rewrite Hbackup, Hcd. apply is_name_spec in Hname'. apply child_ne; tauto.
Qed.

(** When the database is the only entry named after [badger_db], the name
    of the backup is not taken. *)
Lemma backup_fresh (fs : gmap string Entry) dataDir dbPath now :
  dbPath = Filepath.Join [dataDir; Config.DefaultBadgerFile] →
  Strings.free_of Separator now = true →
  dbFiles fs dataDir = ["badger_db"] →
  fs !! backupFileName dbPath now = None.
Proof.
  intros Hpath Hnow Hfiles.
  destruct (backup_paths _ _ _ Hpath Hnow) as (_ & _ & _ & Hdir & Hbase & Hnedir).
  apply not_elem_of_dom. intros Hin.
  pose proof (ReadDir_elem fs dataDir _ Hin Hdir Hnedir) as Hrd.
  rewrite Hbase in Hrd.
  assert (Hin' : "badger_db_" +:+ now ∈ dbFiles fs dataDir).
  { apply list_elem_of_filter. split; [| exact Hrd].
    apply (Contains_prefix "badger_db" ("_" +:+ now)). }
  rewrite Hfiles in Hin'. apply list_elem_of_singleton in Hin'.
  by apply (app_ne_self "badger_db" now "_") in Hin'.
Qed.

(** Opening the store over an existing database, at a time whose backup
    name is not taken: the database is moved to its backup, a fresh one is
    created, and the data directory has one more entry named after
    [badger_db]. *)
Lemma initStore_backup (c : Config.Config) (fs : gmap string Entry)
    (dataDir now : string) (kv : gmap string (list byte)) :
  Config.Store c = true →
  Config.Bootstrap c = false →
  Config.DatabaseDir c = Filepath.Join [dataDir; Config.DefaultBadgerFile] →
  Strings.free_of Separator now = true →
  fs !! Config.DatabaseDir c = Some (Database kv) →
  fs !! backupFileName (Config.DatabaseDir c) now = None →
  ∃ k' fs',
    initStore (NewKdag c) fs now = Ok (k', fs') ∧
    Store_of k' =
      Some (BadgerStore (Config.CacheSize c) (Config.DatabaseDir c)
              (Config.MaintenanceMode c) ∅) ∧
    fs' !! Config.DatabaseDir c = Some (Database ∅) ∧
    fs' !! backupFileName (Config.DatabaseDir c) now = Some (Database kv) ∧
    dbFiles fs' dataDir ≡ₚ ("badger_db_" +:+ now) :: dbFiles fs dataDir.
Proof.
  intros Hstore Hboot Hpath Hnow Hdb Hnone.
  set (dbPath := Config.DatabaseDir c) in *.
  destruct (backup_paths _ _ _ Hpath Hnow)
    as (Hcdb & Hcbk & Hne & Hdirbk & Hbasebk & Hnedir).
  set (fs' := <[dbPath := Database ∅]>
                (<[backupFileName dbPath now := Database kv]> (delete dbPath fs))).
  assert (Hinit : initStore (NewKdag c) fs now =
                  Ok ({| Config_of := c;
                         Store_of := Some (BadgerStore (Config.CacheSize c) dbPath
                                             (Config.MaintenanceMode c) ∅);
                         Node_of := None |}, fs')).
  { unfold initStore, Rename, NewBadgerStore.
    cbn [Config_of NewKdag Node_of].
    rewrite Hstore, Hboot. cbn [negb]. fold dbPath.
    rewrite Hcdb, Hcbk, Hdb, Hnone.
    rewrite lookup_insert_ne by done. rewrite lookup_delete_eq. reflexivity. }
  assert (Hfresh : backupFileName dbPath now ∉ dom fs) by (by apply not_elem_of_dom).
  assert (Hdom : dom fs' = {[backupFileName dbPath now]} ∪ dom fs).
  { unfold fs'. rewrite !dom_insert_L, dom_delete_L.
    assert (dbPath ∈ dom fs) by (apply elem_of_dom; eauto).
    apply set_eq. intros x.
    rewrite !elem_of_union, elem_of_difference, !elem_of_singleton.
    destruct (decide (x = dbPath)) as [-> | Hx]; tauto. }
  eexists _, fs'. split; [exact Hinit |].
  split; [reflexivity |].
  split; [apply lookup_insert_eq |].
  split.
  { unfold fs'. rewrite lookup_insert_ne by done. apply lookup_insert_eq. }
  unfold dbFiles.
  rewrite (ReadDir_insert_entry fs fs' dataDir _ Hfresh Hdom Hdirbk Hnedir).
  by rewrite Hbasebk, filter_cons_True
    by apply (Contains_prefix "badger_db" ("_" +:+ now)).
Qed.

End BackupFacts.

(** C1. A node with [Store] set and [Bootstrap] unset opens its store
    over a data directory that holds a database [badger_db] and no other
    entry named after it: the database is moved to [badger_db_<timestamp>], a
    fresh and empty [badger_db] is created, and the data directory then holds
    exactly two entries whose names contain [badger_db], the database and
    its backup. *)
Theorem initStore_backs_up_existing_database
    (c : Config.Config) (fs : gmap string Kdag.Entry) (dataDir now : string)
    (kv : gmap string (list byte)) :
  Config.Store c = true →
  Config.Bootstrap c = false →
  Config.DatabaseDir c = Filepath.Join [dataDir; Config.DefaultBadgerFile] →
  Strings.free_of Filepath.Separator now = true →
  fs !! Config.DatabaseDir c = Some (Kdag.Database kv) →
  Kdag.dbFiles fs dataDir = ["badger_db"] →
  ∃ k' fs',
    Kdag.initStore (Kdag.NewKdag c) fs now = Ok (k', fs') ∧
    Kdag.Store_of k' =
      Some (Kdag.BadgerStore (Config.CacheSize c) (Config.DatabaseDir c)
              (Config.MaintenanceMode c) ∅) ∧
    fs' !! Config.DatabaseDir c = Some (Kdag.Database ∅) ∧
    fs' !! Kdag.backupFileName (Config.DatabaseDir c) now = Some (Kdag.Database kv) ∧
    Filepath.Dir (Kdag.backupFileName (Config.DatabaseDir c) now) = Filepath.Clean dataDir ∧
    Filepath.Base (Kdag.backupFileName (Config.DatabaseDir c) now) = "badger_db_" +:+ now ∧
    Kdag.dbFiles fs' dataDir ≡ₚ ["badger_db"; "badger_db_" +:+ now] ∧
    length (Kdag.dbFiles fs' dataDir) = 2%nat.
Proof.
  intros Hstore Hboot Hpath Hnow Hdb Hfiles.
  pose proof (backup_fresh fs dataDir _ now Hpath Hnow Hfiles) as Hnone.
  destruct (backup_paths _ _ _ Hpath Hnow) as (_ & _ & _ & Hdir & Hbase & _).
  destruct (initStore_backup c fs dataDir now kv Hstore Hboot Hpath Hnow Hdb Hnone)
    as (k' & fs' & Hinit & Hst & Hnew & Hold & Hgrow).
  assert (Hperm : Kdag.dbFiles fs' dataDir ≡ₚ ["badger_db"; "badger_db_" +:+ now]).
  { rewrite Hgrow, Hfiles. apply Permutation_swap. }
  exists k', fs'. repeat split; try assumption. by rewrite Hperm.
Qed.

(** The test of [initStore]: a first node creates the database in the
    data directory of the tests, a second node then opens its store over
    it. *)
Lemma initStore_backs_up_existing_database_witness :
  let c := Config.set_Store true Kdag.test_conf in
  let fs1 := <["test_data/badger_db" := Kdag.Database ∅]> Kdag.test_fs in
  (∃ k1, Kdag.initStore (Kdag.NewKdag c) Kdag.test_fs "20201030T1200" = Ok (k1, fs1)) ∧
  ∃ k2 fs2,
    Kdag.initStore (Kdag.NewKdag c) fs1 "20201030T1201" = Ok (k2, fs2) ∧
    fs2 !! "test_data/badger_db_20201030T1201" = Some (Kdag.Database ∅) ∧
    length (Kdag.dbFiles fs2 "test_data") = 2%nat.
Proof.
  intros c fs1. split.
  { eexists. vm_compute. reflexivity. }
  destruct (initStore_backs_up_existing_database c fs1 "test_data" "20201030T1201" ∅)
    as (k2 & fs2 & Hinit & _ & _ & Hbk & _ & _ & _ & Hlen);
    [reflexivity | reflexivity | reflexivity | reflexivity | reflexivity
    | vm_compute; reflexivity |].
  exists k2, fs2. split; [exact Hinit |]. split; [exact Hbk | exact Hlen].
Defined.

(** Later runs over the same data directory: every run leaves one more
    backup, and a run at a time whose backup name is taken fails. *)
Example initStore_later_runs :
  let c := Config.set_Store true Kdag.test_conf in
  let fs1 := <["test_data/badger_db" := Kdag.Database ∅]> Kdag.test_fs in
  (fs2 ← Kdag.fs_after (Kdag.initStore (Kdag.NewKdag c) fs1 "20201030T1201");
   fs3 ← Kdag.fs_after (Kdag.initStore (Kdag.NewKdag c) fs2 "20201030T1202");
   Some (Kdag.dbFiles fs3 "test_data",
         is_ok (Kdag.initStore (Kdag.NewKdag c) fs3 "20201030T1202"))) =
  Some (["badger_db"; "badger_db_20201030T1201"; "badger_db_20201030T1202"], false).
Proof. vm_compute. reflexivity. Qed.

(** ** Blocks *)

Section BlockFacts.

Import Hashgraph.

Context `{Digest}.

(** The loop of [NewBlockFromFrame], from any value of its accumulators. *)
Lemma flatten_loop (events : list FrameEvent)
    (txs : list (list byte)) (itxs : list InternalTransaction) :
  fold_left
    (λ acc e,
       (acc.1 ++ ev_Transactions (ev_Body (Core e)),
        acc.2 ++ ev_InternalTransactions (ev_Body (Core e))))
    events (txs, itxs) =
  (txs ++ concat ((λ e, ev_Transactions (ev_Body (Core e))) <$> events),
   itxs ++ concat ((λ e, ev_InternalTransactions (ev_Body (Core e))) <$> events)).
Proof.
  revert txs itxs. induction events as [| e events IH]; intros txs itxs; cbn.
  - by rewrite !app_nil_r.
  - rewrite IH. cbn. by rewrite !app_assoc.
Qed.

Lemma NewBlockFromFrame_eq (blockIndex : Z) (frame : Frame) :
  NewBlockFromFrame blockIndex frame =
    Ok (NewBlock blockIndex (Round frame) (HashFrame frame) (Peers frame)
          (concat ((λ e, ev_Transactions (ev_Body (Core e))) <$> Events frame))
          (concat ((λ e, ev_InternalTransactions (ev_Body (Core e))) <$> Events frame))
          (Timestamp frame)).
Proof. unfold NewBlockFromFrame. by rewrite flatten_loop. Qed.

End BlockFacts.

(** C4. For every frame and block index, [NewBlockFromFrame] returns a
    block and no error; the block has the given index, the round of the
    frame as round-received, and as transactions and internal transactions
    the concatenation, in the order of the events of the frame, of those of
    the events. *)
Theorem NewBlockFromFrame_flattens `{Hashgraph.Digest} (i : Z) (f : Hashgraph.Frame) :
  ∃ b, Hashgraph.NewBlockFromFrame i f = Ok b ∧
       Hashgraph.Index (Hashgraph.Body b) = i ∧
       Hashgraph.RoundReceived (Hashgraph.Body b) = Hashgraph.Round f ∧
       Hashgraph.Transactions (Hashgraph.Body b) =
         concat ((λ e, Hashgraph.ev_Transactions (Hashgraph.ev_Body (Hashgraph.Core e)))
                   <$> Hashgraph.Events f) ∧
       Hashgraph.InternalTransactions (Hashgraph.Body b) =
         concat ((λ e, Hashgraph.ev_InternalTransactions (Hashgraph.ev_Body (Hashgraph.Core e)))
                   <$> Hashgraph.Events f).
Proof.
  eexists. split; [apply NewBlockFromFrame_eq |]. repeat split.
Qed.

(** The frame of the test, made into block 10. *)
Example NewBlockFromFrame_test_frame :
  ∃ b, @Hashgraph.NewBlockFromFrame Hashgraph.sum_digest 10 Hashgraph.test_frame = Ok b ∧
       Hashgraph.Index (Hashgraph.Body b) = 10 ∧
       Hashgraph.RoundReceived (Hashgraph.Body b) = 56 ∧
       Hashgraph.Transactions (Hashgraph.Body b) = Hashgraph.test_transactions ∧
       Hashgraph.InternalTransactions (Hashgraph.Body b) =
         Hashgraph.test_internalTransactions ∧
       Hashgraph.PeerSet b = Hashgraph.Peers Hashgraph.test_frame.
Proof. eexists. split; [reflexivity |]. repeat split. Qed.

(** ** The application gateway *)

(** C6. The gateway has exactly five operations: the submit channel,
    [CommitBlock], [GetSnapshot], [Restore] and [OnStateChanged], with the
    arguments and results that [Proxy.Op] lists; every implementation is made
    of its reactions to these five and of nothing else. *)
Theorem AppGateway_five_operations (App : Type) (g : Proxy.AppGateway App) :
  Proxy.all_ops =
    [Proxy.NSubmitCh; Proxy.NCommitBlock; Proxy.NGetSnapshot; Proxy.NRestore;
     Proxy.NOnStateChanged] ∧
  length Proxy.all_ops = 5%nat ∧
  NoDup Proxy.all_ops ∧
  (∀ R (op : Proxy.Op R), Proxy.op_name op ∈ Proxy.all_ops) ∧
  (∀ name, name ∈ Proxy.all_ops → ∃ R (op : Proxy.Op R), Proxy.op_name op = name) ∧
  g = {| Proxy.SubmitCh := Proxy.SubmitCh g;
         Proxy.CommitBlock := Proxy.CommitBlock g;
         Proxy.GetSnapshot := Proxy.GetSnapshot g;
         Proxy.Restore := Proxy.Restore g;
         Proxy.OnStateChanged := Proxy.OnStateChanged g |} ∧
  Proxy.of_handler (λ R, @Proxy.call App R g) = g ∧
  (∀ (block : Hashgraph.Block) (app : App),
     (∃ resp, (Proxy.CommitBlock g block app).1 = Ok resp) ∨
     (∃ e, (Proxy.CommitBlock g block app).1 = Err e)).
Proof.
  split; [reflexivity |]. split; [reflexivity |]. split.
  { apply (bool_decide_unpack _). reflexivity. }
  split.
  { intros R op. destruct op; cbn; unfold Proxy.all_ops; repeat constructor. }
  split.
  { intros name _. destruct name.
    - by exists _, Proxy.OpSubmitCh.
    - by exists _, (Proxy.OpCommitBlock (Hashgraph.NewBlock 0 0 [] [] [] [] 0)).
    - by exists _, (Proxy.OpGetSnapshot 0).
    - by exists _, (Proxy.OpRestore []).
    - by exists _, (Proxy.OpOnStateChanged State.Babbling). }
  split; [by destruct g |]. split; [by destruct g |].
  intros block app. destruct (Proxy.CommitBlock g block app).1; eauto.
Qed.

(** The dummy application reached through the five operations: the test
    block is committed with all its internal transactions accepted, and the
    snapshot of block 0 is the state after it. *)
Example dummy_gateway_calls :
  let g := Proxy.InmemDummyClient in
  let '(resp, d1) := Proxy.call g (Proxy.OpCommitBlock Hashgraph.createTestBlock)
                       Proxy.dummy_initial in
  let '(snap, d2) := Proxy.call g (Proxy.OpGetSnapshot 0) d1 in
  let '(err, d3) := Proxy.call g (Proxy.OpOnStateChanged State.Suspended) d2 in
  resp = Ok {| Proxy.cr_StateHash := Hashgraph.bytes_of "abcdefghi";
               Proxy.cr_InternalTransactionReceipts :=
                 Hashgraph.InternalTransactionReceipts
                   (Hashgraph.Body Hashgraph.createTestBlock) |} ∧
  snap = Ok (Hashgraph.bytes_of "abcdefghi") ∧
  err = None ∧
  Proxy.nodeState d3 = Some State.Suspended ∧
  (Proxy.call g Proxy.OpSubmitCh d3).1 = [].
Proof. vm_compute. repeat split. Qed.

(** ** Bytes and hexadecimal text *)

Section BytesFacts.

Import Bytes.









End BytesFacts.

(** ** Curves and signatures *)

Section CurveFacts.

Import Elliptic.



End CurveFacts.

Section EcdsaFacts.

Import Elliptic Ecdsa.








End EcdsaFacts.

(** ** The curve of 31 points *)

Section TinyCurveFacts.

Import Elliptic.











End TinyCurveFacts.

(** ** Signatures of blocks *)

Section SignatureFacts.

Import Elliptic Ecdsa.





End SignatureFacts.



(** The signature that this run computes, and a signature that is not the
    one of the block. *)
Example sign_test_block :
  let priv := {| Ecdsa.Public := {| Ecdsa.Curve := Elliptic.T43;
                                    Ecdsa.XY := Elliptic.ScalarBaseMult Elliptic.T43 5 |};
                 Ecdsa.D := 5 |} in
  ∃ sig,
    @Hashgraph.Sign Hashgraph.sum_digest [7; 11] Hashgraph.createTestBlock priv = Ok sig ∧
    @Hashgraph.Verify Hashgraph.sum_digest Elliptic.T43 Hashgraph.createTestBlock sig = Ok true ∧
    @Hashgraph.Verify Hashgraph.sum_digest Elliptic.T43 Hashgraph.createTestBlock
      {| Hashgraph.Validator := Hashgraph.Validator sig;
         Hashgraph.bs_Index := 0;
         Hashgraph.Signature := ((Hashgraph.Signature sig).1, (Hashgraph.Signature sig).2 + 1) |}
      = Ok false.
Proof.
  eexists. split; [vm_compute; reflexivity |]. split; vm_compute; reflexivity.
Qed.

(** ** The keys of the validators *)

(** The base point of secp256k1 lies on the curve, and its double is the
    point that the test vectors of the curve give. *)
Example secp256k1_base_point :
  Elliptic.IsOnCurve Elliptic.S256
    (Elliptic.Gx Elliptic.secp256k1, Elliptic.Gy Elliptic.secp256k1) = true ∧
  Elliptic.ScalarBaseMult Elliptic.S256 2 =
    (0xC6047F9441ED7D6D3045406E95C07CD85C778E4B8CEF3CA7ABAC09B95C709EE5,
     0x1AE168FEA63DC339A3C58419466CEAEEF7F632653266D0E1236431A950CFE52A) ∧
  Elliptic.IsOnCurve Elliptic.S256 (Elliptic.ScalarBaseMult Elliptic.S256 5) = true.
Proof.
  split; [vm_compute; reflexivity |]. split; vm_compute; reflexivity.
Qed.



(** * Further properties of the configuration

    The functions of [config.go] taken together: how [SetDataDir] composes
    with itself, where the default directories lie, which files share the
    data directory, and what [Logger] keeps. *)

Section LayoutFacts.

Import Filepath Config.

Lemma is_name_DefaultKeyfile : is_name DefaultKeyfile = true.
Proof. reflexivity. Qed.

Lemma is_name_DefaultBadgerFile : is_name DefaultBadgerFile = true.
Proof. reflexivity. Qed.

Lemma is_name_DefaultCertFile : is_name DefaultCertFile = true.
Proof. reflexivity. Qed.

(** [Clean] never writes the empty path. *)
Lemma Clean_not_empty d : Clean d ≠ "".
Proof.
  destruct (Clean_shape d) as (root & l & Hl & ->). by apply render_not_empty.
Qed.

(** An entry joined to a directory is a path in clean form. *)
Lemma Join_name_clean d n : is_name n = true → Clean (Join [d; n]) = Join [d; n].
Proof.
  intros Hn. rewrite (Join_child _ _ Hn).
  destruct (Clean_shape d) as (root & l & Hl & ->). by apply Clean_child_clean.
Qed.

Lemma Join_name_not_empty d n : is_name n = true → Join [d; n] ≠ "".
Proof. intros Hn. rewrite <- (Join_name_clean _ _ Hn). apply Clean_not_empty. Qed.

(** The same entry of two directories is one path only if the directories
    are the same after cleaning. *)
Lemma Join_name_inj d1 d2 n :
  is_name n = true → Join [d1; n] = Join [d2; n] → Clean d1 = Clean d2.
Proof.
  intros Hn Heq.
  destruct (Join_entry d1 n Hn) as (_ & <- & _).
  destruct (Join_entry d2 n Hn) as (_ & <- & _). by rewrite Heq.
Qed.

Lemma Join_Clean d n : is_name n = true → Join [Clean d; n] = Join [d; n].
Proof. intros Hn. by rewrite !(Join_child _ _ Hn), Clean_idem. Qed.

(** Entries of different names are different paths, whatever their
    directories. *)
Lemma Join_names_ne d1 d2 n m :
  is_name n = true → is_name m = true → n ≠ m → Join [d1; n] ≠ Join [d2; m].
Proof.
  intros Hn Hm Hne Heq.
  destruct (Join_entry d1 n Hn) as (_ & _ & Hb1).
  destruct (Join_entry d2 m Hm) as (_ & _ & Hb2).
  rewrite Heq, Hb2 in Hb1. by apply Hne.
Qed.

(** Assignments to [DataDir] and [DatabaseDir] overwrite earlier ones. *)
Lemma set_DataDir_twice d d' c : set_DataDir d (set_DataDir d' c) = set_DataDir d c.
Proof. reflexivity. Qed.

Lemma set_DataDir_DatabaseDir_twice d d' v v' c :
  set_DatabaseDir v (set_DataDir d (set_DatabaseDir v' (set_DataDir d' c))) =
  set_DatabaseDir v (set_DataDir d c).
Proof. reflexivity. Qed.

Lemma set_DataDir_over_DatabaseDir d d' v c :
  set_DataDir d (set_DatabaseDir v (set_DataDir d' c)) =
  set_DatabaseDir v (set_DataDir d c).
Proof. reflexivity. Qed.

Lemma SetDataDir_DataDir env c d : DataDir (SetDataDir env c d) = d.
Proof. unfold SetDataDir. by destruct (decide _). Qed.

(** With a home directory, off windows, the default data directory is
    one [Join] of the home directory and the name that the system has. *)
Lemma DefaultDataDir_Join env :
  HomeDir env ≠ "" → env_GOOS env ≠ windows →
  DefaultDataDir env =
    Join [HomeDir env; match env_GOOS env with darwin => ".Kdag" | _ => ".kdag" end].
Proof.
  intros Hhome Hos. unfold DefaultDataDir. cbv zeta.
  rewrite decide_True by exact Hhome.
  by destruct (env_GOOS env).
Qed.

Lemma HomeDir_empty env :
  HomeDir env = "" ↔
  env_HOME env = "" ∧ (env_user_HomeDir env = None ∨ env_user_HomeDir env = Some "").
Proof.
  unfold HomeDir. destruct (decide (env_HOME env ≠ "")) as [Hne | Heq].
  - split; [done | by intros [? _]].
  - apply dec_stable in Heq. destruct (env_user_HomeDir env) as [home |].
    + split; [intros ->; auto | intros [_ [? | [= ->]]]; done].
    + split; auto.
Qed.

End LayoutFacts.

(** X1. [SetDataDir] is idempotent: calling it a second time with the
    same directory changes nothing, whether the first call moved the
    database directory or not. *)
Theorem SetDataDir_idempotent (env : Config.Env) (c : Config.Config) (d : string) :
  Config.SetDataDir env (Config.SetDataDir env c d) d = Config.SetDataDir env c d.
Proof.
  destruct (decide (Config.DatabaseDir c = Config.DefaultDatabaseDir env)) as [Hdef | Hexp].
  - rewrite (SetDataDir_default env c d Hdef).
    set (v := Filepath.Join [d; Config.DefaultBadgerFile]).
    destruct (decide (v = Config.DefaultDatabaseDir env)) as [Hv | Hv].
    + rewrite SetDataDir_default by exact Hv. apply set_DataDir_DatabaseDir_twice.
    + rewrite SetDataDir_explicit by exact Hv. apply set_DataDir_over_DatabaseDir.
  - rewrite (SetDataDir_explicit env c d Hexp).
    rewrite SetDataDir_explicit by exact Hexp. apply set_DataDir_twice.
Qed.

(** X2. The database directory follows the data directory once only.
    On a configuration with the default database directory, a first
    [SetDataDir d1] away from the default data directory puts the database
    under [d1]; a later [SetDataDir d2] moves the data directory, and with
    it the key file, to [d2] but leaves the database under [d1]. When [d1]
    is the default data directory (up to cleaning) the database directory
    is still the default one and follows the second call. *)
Theorem SetDataDir_second_call
    (env : Config.Env) (c : Config.Config) (d1 d2 : string) :
  Config.DatabaseDir c = Config.DefaultDatabaseDir env →
  let c2 := Config.SetDataDir env (Config.SetDataDir env c d1) d2 in
  Config.DataDir c2 = d2 ∧
  Filepath.Dir (Config.Keyfile c2) = Filepath.Clean d2 ∧
  (Filepath.Clean d1 ≠ Filepath.Clean (Config.DefaultDataDir env) →
   Config.DatabaseDir c2 = Filepath.Join [d1; Config.DefaultBadgerFile] ∧
   Filepath.Dir (Config.DatabaseDir c2) = Filepath.Clean d1) ∧
  (Filepath.Clean d1 = Filepath.Clean (Config.DefaultDataDir env) →
   Config.DatabaseDir c2 = Filepath.Join [d2; Config.DefaultBadgerFile] ∧
   Filepath.Dir (Config.DatabaseDir c2) = Filepath.Clean d2).
Proof.
  intros Hdef c2.
  assert (Hdata : Config.DataDir c2 = d2) by apply SetDataDir_DataDir.
  split; [exact Hdata |]. split.
  { unfold Config.Keyfile. rewrite Hdata.
    by destruct (Join_entry d2 _ is_name_DefaultKeyfile) as (_ & ? & _). }
  subst c2. rewrite (SetDataDir_default env c d1 Hdef).
  set (v := Filepath.Join [d1; Config.DefaultBadgerFile]).
  split; intros Hd1.
  - assert (Hv : v ≠ Config.DefaultDatabaseDir env).
    { intros Heq. apply Hd1.
      by apply (Join_name_inj _ _ _ is_name_DefaultBadgerFile). }
    rewrite SetDataDir_explicit by exact Hv.
    split; [reflexivity |].
    change (Filepath.Dir v = Filepath.Clean d1).
    by destruct (Join_entry d1 _ is_name_DefaultBadgerFile) as (_ & ? & _).
  - assert (Hv : v = Config.DefaultDatabaseDir env).
    { unfold v, Config.DefaultDatabaseDir.
      by rewrite !(Join_child _ _ is_name_DefaultBadgerFile), Hd1. }
    rewrite SetDataDir_default by exact Hv.
    split; [reflexivity |].
    change (Filepath.Dir (Filepath.Join [d2; Config.DefaultBadgerFile]) = Filepath.Clean d2).
    by destruct (Join_entry d2 _ is_name_DefaultBadgerFile) as (_ & ? & _).
Qed.

(** A default configuration moved to [test_data] and then to [other]:
    the key file is in [other], the database still in [test_data]. *)
Lemma SetDataDir_second_call_witness :
  let env := {| Config.env_HOME := "/home/kdag"; Config.env_user_HomeDir := None;
                Config.env_GOOS := Config.other_os |} in
  let c2 := Config.SetDataDir env
              (Config.SetDataDir env (Config.NewDefaultConfig env) "test_data") "other" in
  Config.DataDir c2 = "other" ∧
  Config.Keyfile c2 = "other/priv_key" ∧
  Config.DatabaseDir c2 = "test_data/badger_db".
Proof.
  intros env c2.
  destruct (SetDataDir_second_call env (Config.NewDefaultConfig env) "test_data" "other"
              eq_refl) as (H1 & _ & H2 & _).
  split; [exact H1 |]. split; [reflexivity |].
  apply H2. by vm_compute.
Defined.

(** X3. The default data directory on darwin and on the systems served by
    the last branch of [DefaultDataDir]: it is empty exactly when no home
    directory is found; otherwise it is the entry [.Kdag] (darwin) or
    [.kdag] of the home directory, a path in clean form, and the default
    database directory is its entry [badger_db]. *)
Theorem DefaultDataDir_in_home (env : Config.Env) :
  Config.env_GOOS env ≠ Config.windows →
  let name := match Config.env_GOOS env with
              | Config.darwin => ".Kdag"
              | _ => ".kdag"
              end in
  (Config.DefaultDataDir env = "" ↔ Config.HomeDir env = "") ∧
  (Config.HomeDir env ≠ "" →
   Config.DefaultDataDir env = Filepath.child (Filepath.Clean (Config.HomeDir env)) name ∧
   Filepath.Dir (Config.DefaultDataDir env) = Filepath.Clean (Config.HomeDir env) ∧
   Filepath.Base (Config.DefaultDataDir env) = name ∧
   Filepath.Clean (Config.DefaultDataDir env) = Config.DefaultDataDir env ∧
   Filepath.Dir (Config.DefaultDatabaseDir env) = Config.DefaultDataDir env ∧
   Filepath.Base (Config.DefaultDatabaseDir env) = "badger_db").
Proof.
  intros Hos name.
  assert (Hname : Filepath.is_name name = true).
  { subst name. by destruct (Config.env_GOOS env). }
  assert (Hjoin : Config.HomeDir env ≠ "" →
                  Config.DefaultDataDir env = Filepath.Join [Config.HomeDir env; name]).
  { intros Hhome. by apply DefaultDataDir_Join. }
  split.
  - split.
    + intros Hempty. destruct (decide (Config.HomeDir env = "")) as [? | Hhome]; [done |].
      rewrite (Hjoin Hhome) in Hempty. by apply Join_name_not_empty in Hempty.
    + intros Hhome. unfold Config.DefaultDataDir. cbv zeta.
      by rewrite decide_False by (by intros []).
  - intros Hhome. rewrite (Hjoin Hhome).
    destruct (Join_entry (Config.HomeDir env) name Hname) as (Hc & Hd & Hb).
    split; [exact Hc |]. split; [exact Hd |]. split; [exact Hb |].
    split; [by apply Join_name_clean |].
    unfold Config.DefaultDatabaseDir. rewrite (Hjoin Hhome).
    destruct (Join_entry (Filepath.Join [Config.HomeDir env; name]) _
                is_name_DefaultBadgerFile) as (_ & Hd' & Hb').
    split; [| exact Hb'].
    by rewrite Hd', Join_name_clean.
Qed.

(** With [HOME=/home/kdag/] on Linux the data directory is
    [/home/kdag/.kdag] and the database directory its entry [badger_db]. *)
Lemma DefaultDataDir_in_home_witness :
  let env := {| Config.env_HOME := "/home/kdag/"; Config.env_user_HomeDir := None;
                Config.env_GOOS := Config.other_os |} in
  Config.DefaultDataDir env = "/home/kdag/.kdag" ∧
  Filepath.Dir (Config.DefaultDatabaseDir env) = "/home/kdag/.kdag" ∧
  Filepath.Base (Config.DefaultDatabaseDir env) = "badger_db".
Proof.
  intros env.
  assert (Hos : Config.env_GOOS env ≠ Config.windows) by (by vm_compute).
  assert (Hhome : Config.HomeDir env ≠ "") by (by vm_compute).
  destruct (DefaultDataDir_in_home env Hos) as (_ & H).
  destruct (H Hhome) as (H1 & _ & _ & _ & H2 & H3).
  split; [exact H1 |]. split; [| exact H3].
  rewrite H2. exact H1.
Defined.

(** X4. When no home directory is found ([HOME] empty and the lookup of
    the current user fails or gives an empty directory), the default
    configuration has an empty data directory and its files are relative
    paths: the database directory is [badger_db], the key file [priv_key]
    and the certificate [cert.pem]. Its database directory still counts as
    the default one, so [SetDataDir] moves it. *)
Theorem NewDefaultConfig_without_home (env : Config.Env) (d : string) :
  Config.env_HOME env = "" →
  Config.env_user_HomeDir env = None ∨ Config.env_user_HomeDir env = Some "" →
  let c := Config.NewDefaultConfig env in
  Config.DataDir c = "" ∧
  Config.DatabaseDir c = "badger_db" ∧
  Config.Keyfile c = "priv_key" ∧
  Config.CertFile c = "cert.pem" ∧
  Config.DatabaseDir (Config.SetDataDir env c d) =
    Filepath.Join [d; Config.DefaultBadgerFile].
Proof.
  intros Hhome Huser c.
  assert (Hempty : Config.DefaultDataDir env = "").
  { unfold Config.DefaultDataDir. cbv zeta.
    rewrite decide_False; [reflexivity |].
    intros Hne. apply Hne. by apply HomeDir_empty. }
  assert (Hdata : Config.DataDir c = "") by exact Hempty.
  split; [exact Hdata |].
  split; [change (Config.DefaultDatabaseDir env = "badger_db");
          unfold Config.DefaultDatabaseDir; by rewrite Hempty |].
  split; [unfold Config.Keyfile; by rewrite Hdata |].
  split; [unfold Config.CertFile; by rewrite Hdata |].
  by rewrite (SetDataDir_default env c d eq_refl).
Qed.

Lemma NewDefaultConfig_without_home_witness :
  let env := {| Config.env_HOME := ""; Config.env_user_HomeDir := None;
                Config.env_GOOS := Config.other_os |} in
  Config.Keyfile (Config.NewDefaultConfig env) = "priv_key" ∧
  Config.DatabaseDir (Config.SetDataDir env (Config.NewDefaultConfig env) "test_data") =
    "test_data/badger_db".
Proof.
  intros env.
  destruct (NewDefaultConfig_without_home env "test_data" eq_refl (or_introl eq_refl))
    as (_ & _ & H1 & _ & H2).
  split; [exact H1 | exact H2].
Defined.

(** X5. The certificate file is the entry [cert.pem] of the data
    directory, for every configuration: beside the key file, in the same
    directory and never the same path. *)
Theorem CertFile_layout (c : Config.Config) :
  Config.CertFile c = Filepath.child (Filepath.Clean (Config.DataDir c)) "cert.pem" ∧
  Filepath.Dir (Config.CertFile c) = Filepath.Clean (Config.DataDir c) ∧
  Filepath.Base (Config.CertFile c) = "cert.pem" ∧
  Filepath.Dir (Config.CertFile c) = Filepath.Dir (Config.Keyfile c) ∧
  Config.CertFile c ≠ Config.Keyfile c.
Proof.
  unfold Config.CertFile, Config.Keyfile.
  destruct (Join_entry (Config.DataDir c) _ is_name_DefaultCertFile) as (Hc & Hd & Hb).
  destruct (Join_entry (Config.DataDir c) _ is_name_DefaultKeyfile) as (_ & Hd' & _).
  split; [exact Hc |]. split; [exact Hd |]. split; [exact Hb |].
  split; [by rewrite Hd, Hd' |].
  by apply Join_names_ne.
Qed.

(** X6. After [SetDataDir d] on a configuration with the default database
    directory, the key file, the certificate and the database directory
    are three different entries of the one directory [d]. *)
Theorem SetDataDir_entries_distinct
    (env : Config.Env) (c : Config.Config) (d : string) :
  Config.DatabaseDir c = Config.DefaultDatabaseDir env →
  let c' := Config.SetDataDir env c d in
  (Filepath.Dir (Config.Keyfile c') = Filepath.Clean d ∧
   Filepath.Dir (Config.CertFile c') = Filepath.Clean d ∧
   Filepath.Dir (Config.DatabaseDir c') = Filepath.Clean d) ∧
  Config.Keyfile c' ≠ Config.CertFile c' ∧
  Config.Keyfile c' ≠ Config.DatabaseDir c' ∧
  Config.CertFile c' ≠ Config.DatabaseDir c'.
Proof.
  intros Hdef c'. subst c'. rewrite (SetDataDir_default env c d Hdef).
  unfold Config.Keyfile, Config.CertFile.
  change (Config.DataDir (Config.set_DatabaseDir _ (Config.set_DataDir d c))) with d.
  change (Config.DatabaseDir (Config.set_DatabaseDir _ (Config.set_DataDir d c)))
    with (Filepath.Join [d; Config.DefaultBadgerFile]).
  destruct (Join_entry d _ is_name_DefaultKeyfile) as (_ & Hk & _).
  destruct (Join_entry d _ is_name_DefaultCertFile) as (_ & Hc & _).
  destruct (Join_entry d _ is_name_DefaultBadgerFile) as (_ & Hb & _).
  split; [by repeat split |].
  split; [by apply Join_names_ne |].
  split; by apply Join_names_ne.
Qed.

Lemma SetDataDir_entries_distinct_witness :
  let env := {| Config.env_HOME := "/home/kdag"; Config.env_user_HomeDir := None;
                Config.env_GOOS := Config.other_os |} in
  let c' := Config.SetDataDir env (Config.NewDefaultConfig env) "test_data" in
  Filepath.Dir (Config.DatabaseDir c') = "test_data" ∧
  Config.Keyfile c' ≠ Config.DatabaseDir c'.
Proof.
  intros env c'.
  destruct (SetDataDir_entries_distinct env (Config.NewDefaultConfig env) "test_data"
              eq_refl) as ((_ & _ & H1) & _ & H2 & _).
  split; [exact H1 | exact H2].
Defined.

Section LoggerFacts.

Import Config.

(** [Logger] writes the field [logger] only. *)
Lemma Logger_set_logger c : (Logger c).2 = set_logger (logger (Logger c).2) c.
Proof.
  unfold Logger.
  destruct c as [? ? ? ? ? ? ? ? ? ? ? ? ? ? ? ? ? ? ? ? ? ? ? ? ? ? ? [l |]];
    reflexivity.
Qed.

(** With a logger in place [Logger] returns an entry of that logger and
    leaves the configuration as it is. *)
Lemma Logger_Some c l :
  logger c = Some l → Logger c = (Logrus.WithField l "prefix" "kdag", c).
Proof. intros Hl. unfold Logger. by rewrite Hl, Hl. Qed.

Lemma Logger_None c :
  logger c = None →
  Logger c =
    let l := {| Logrus.Level_of := LogLevel (LogLevel_of c);
                Logrus.Formatter_of := Logrus.PrefixedTextFormatter |} in
    (Logrus.WithField l "prefix" "kdag", set_logger (Some l) c).
Proof. intros Hl. unfold Logger. by rewrite Hl. Qed.

Lemma Logger_logger c :
  ∃ l, logger (Logger c).2 = Some l ∧
       (Logger c).1 = Logrus.WithField l "prefix" "kdag".
Proof.
  destruct (logger c) as [l |] eqn:Hl.
  - exists l. by rewrite (Logger_Some c l Hl).
  - rewrite (Logger_None c Hl). by eexists.
Qed.

End LoggerFacts.

(** X7. [Logger] makes the logger once. After a first call the
    configuration holds a logger; every later call returns the same entry
    and changes nothing, and a value assigned to the field [LogLevel]
    after the first call has no effect on the entries returned. The first
    call writes no field but [logger], and the logger it makes has the
    level [LogLevel(c.LogLevel)] and the prefixed formatter. *)
Theorem Logger_made_once (c : Config.Config) (l : string) :
  let r := Config.Logger c in
  Config.logger r.2 ≠ None ∧
  Config.Logger r.2 = r ∧
  (Config.Logger (Config.set_LogLevel l r.2)).1 = r.1 ∧
  r.2 = Config.set_logger (Config.logger r.2) c ∧
  Logrus.entry_Data r.1 = [("prefix", "kdag")] ∧
  (Config.logger c = None →
   Logrus.entry_Logger r.1 =
     {| Logrus.Level_of := Config.LogLevel (Config.LogLevel_of c);
        Logrus.Formatter_of := Logrus.PrefixedTextFormatter |}).
Proof.
  intros r. subst r.
  destruct (Logger_logger c) as (lg & Hlg & Hentry).
  split; [by rewrite Hlg |].
  split; [rewrite (Logger_Some _ lg Hlg), <- Hentry; by destruct (Config.Logger c) |].
  split; [by rewrite (Logger_Some (Config.set_LogLevel l _) lg Hlg) |].
  split; [apply Logger_set_logger |].
  split; [by rewrite Hentry |].
  intros Hnone. by rewrite (Logger_None c Hnone).
Qed.

(** The default configuration: the first call makes a logger at debug
    level; setting [LogLevel] to [error] afterwards changes nothing. *)
Lemma Logger_made_once_witness :
  let env := {| Config.env_HOME := "/home/kdag"; Config.env_user_HomeDir := None;
                Config.env_GOOS := Config.other_os |} in
  let r := Config.Logger (Config.NewDefaultConfig env) in
  Logrus.Level_of (Logrus.entry_Logger r.1) = Logrus.DebugLevel ∧
  Logrus.Level_of (Logrus.entry_Logger (Config.Logger (Config.set_LogLevel "error" r.2)).1) =
    Logrus.DebugLevel.
Proof.
  intros env r.
  destruct (Logger_made_once (Config.NewDefaultConfig env) "error")
    as (_ & _ & H1 & _ & _ & H2).
  fold r in H1, H2. rewrite H1, (H2 eq_refl). split; reflexivity.
Defined.

(** X8. [LogLevel] is exact about the names: a level other than debug is
    returned for its lower-case name and for no other string, the debug
    level for every string that is not one of the five other names, and
    the trace level of Logrus is never returned. *)
Theorem LogLevel_names (l : string) :
  (Config.LogLevel l = Logrus.InfoLevel ↔ l = "info") ∧
  (Config.LogLevel l = Logrus.WarnLevel ↔ l = "warn") ∧
  (Config.LogLevel l = Logrus.ErrorLevel ↔ l = "error") ∧
  (Config.LogLevel l = Logrus.FatalLevel ↔ l = "fatal") ∧
  (Config.LogLevel l = Logrus.PanicLevel ↔ l = "panic") ∧
  (Config.LogLevel l = Logrus.DebugLevel ↔
   l ∉ ["info"; "warn"; "error"; "fatal"; "panic"]) ∧
  Config.LogLevel l ≠ Logrus.TraceLevel.
Proof.
  unfold Config.LogLevel.
  rewrite !not_elem_of_cons.
  repeat (destruct (decide _) as [-> | ?]);
    repeat split; try discriminate; try done; try tauto;
    try (intros (? & ? & ? & ? & ? & ?); done);
    apply not_elem_of_nil.
Qed.

(** X9. A test configuration keeps its test logger: [Logger] returns an
    entry of the logger given to [NewTestConfig], at the level of that
    logger whatever the field [LogLevel] says, and leaves the configuration
    unchanged; but for the logger the configuration is the default one. *)
Theorem NewTestConfig_Logger (env : Config.Env) (testLogger : Logrus.Logger) :
  let c := Config.NewTestConfig env (Some testLogger) in
  Config.Logger c = (Logrus.WithField testLogger "prefix" "kdag", c) ∧
  Logrus.entry_Logger (Config.Logger c).1 = testLogger ∧
  Config.set_logger None c = Config.NewDefaultConfig env ∧
  Config.DatabaseDir c = Config.DefaultDatabaseDir env.
Proof.
  intros c.
  assert (H : Config.Logger c = (Logrus.WithField testLogger "prefix" "kdag", c))
    by (by apply Logger_Some).
  split; [exact H |]. rewrite H. repeat split.
Qed.

(** X10. The default layout under a home directory. Off windows, with a
    home directory [h] in clean form other than [.] and [/], the default
    configuration has the data directory [h/.kdag] ([h/.Kdag] on darwin),
    and its key file, certificate and database directory are literally
    [priv_key], [cert.pem] and [badger_db] under it. *)
Theorem NewDefaultConfig_layout (env : Config.Env) :
  Config.env_GOOS env ≠ Config.windows →
  Filepath.Clean (Config.HomeDir env) = Config.HomeDir env →
  Config.HomeDir env ≠ "." → Config.HomeDir env ≠ "/" →
  let c := Config.NewDefaultConfig env in
  let dir := Config.HomeDir env +:+
             match Config.env_GOOS env with
             | Config.darwin => "/.Kdag"
             | _ => "/.kdag"
             end in
  Config.DataDir c = dir ∧
  Config.Keyfile c = dir +:+ "/priv_key" ∧
  Config.CertFile c = dir +:+ "/cert.pem" ∧
  Config.DatabaseDir c = dir +:+ "/badger_db".
Proof.
  intros Hos Hclean Hdot Hslash c dir.
  set (name := match Config.env_GOOS env with
               | Config.darwin => ".Kdag"
               | _ => ".kdag"
               end).
  assert (Hname : Filepath.is_name name = true).
  { subst name. by destruct (Config.env_GOOS env). }
  assert (Hhome : Config.HomeDir env ≠ "").
  { intros Heq. rewrite Heq in Hclean. discriminate Hclean. }
  assert (Hjoin : Config.DefaultDataDir env = Filepath.Join [Config.HomeDir env; name])
    by exact (DefaultDataDir_Join env Hhome Hos).
  assert (Hdata : Config.DefaultDataDir env = dir).
  { rewrite Hjoin, (Join_literal _ _ Hname Hclean Hdot Hslash).
    subst dir name. by destruct (Config.env_GOOS env). }
  assert (Hbase : Filepath.Base dir = name).
  { rewrite <- Hdata, Hjoin.
    by destruct (Join_entry (Config.HomeDir env) name Hname) as (_ & _ & ?). }
  assert (Hentry : ∀ n, Filepath.is_name n = true →
                        Filepath.Join [dir; n] = dir +:+ String Filepath.Separator n).
  { intros n Hn. apply (Join_literal _ _ Hn).
    - rewrite <- Hdata, Hjoin. by apply Join_name_clean.
    - intros Heq. rewrite Heq in Hbase. subst name.
      by destruct (Config.env_GOOS env).
    - intros Heq. rewrite Heq in Hbase. subst name.
      by destruct (Config.env_GOOS env). }
  assert (Hc : Config.DataDir c = dir) by exact Hdata.
  split; [exact Hc |].
  split; [unfold Config.Keyfile; rewrite Hc; by apply Hentry |].
  split; [unfold Config.CertFile; rewrite Hc; by apply Hentry |].
  change (Config.DefaultDatabaseDir env = dir +:+ "/badger_db").
  unfold Config.DefaultDatabaseDir. rewrite Hdata. by apply Hentry.
Qed.

(** On Linux with [HOME=/home/kdag]. *)
Lemma NewDefaultConfig_layout_witness :
  let env := {| Config.env_HOME := "/home/kdag"; Config.env_user_HomeDir := None;
                Config.env_GOOS := Config.other_os |} in
  let c := Config.NewDefaultConfig env in
  Config.DataDir c = "/home/kdag/.kdag" ∧
  Config.Keyfile c = "/home/kdag/.kdag/priv_key" ∧
  Config.CertFile c = "/home/kdag/.kdag/cert.pem" ∧
  Config.DatabaseDir c = "/home/kdag/.kdag/badger_db".
Proof.
  intros env c.
  assert (Hos : Config.env_GOOS env ≠ Config.windows) by (by vm_compute).
  assert (Hdot : Config.HomeDir env ≠ ".") by (by vm_compute).
  assert (Hslash : Config.HomeDir env ≠ "/") by (by vm_compute).
  exact (NewDefaultConfig_layout env Hos eq_refl Hdot Hslash).
Defined.
